(** * AluminatiAI energy tracking: the example Python client

    A shallow embedding of [examples/python_client.py]: the class
    [AluminatiEnergyTracker] with its constructor and its three methods
    [submit_workload], [get_workload] and [update_status].

    The client talks to three things outside itself: the HTTP session
    ([requests.Session]), the clock ([time.sleep]) and the console
    ([print]).  All three are kept in one chronological log of events, and
    the remote service is a script of outcomes, one per outbound call.
    Python exceptions are an error monad on top of that state. *)

From Stdlib Require Import ZArith List String Ascii Bool Lia PrimFloat.
Import ListNotations.

Local Open Scope string_scope.
Local Open Scope list_scope.
Local Open Scope Z_scope.

(* ===================================================================== *)
(** ** Python values *)

(** The values that travel through the client: what [json.loads] produces
    and what the [json=] argument of a request takes.  A Python [float] is
    an IEEE binary64 number, a Python [int] is unbounded, a [dict] keeps its
    keys in insertion order and holds one binding per key. *)
#[warnings="-register-all"] Inductive value : Type :=
| VNone
| VBool (b : bool)
| VInt (n : Z)
| VFloat (x : float)
| VStr (s : string)
| VList (l : list value)
| VDict (d : list (string * value)).

Definition dict := list (string * value).

(** [key in d] and [d[key]] on a dict. *)
Fixpoint dict_lookup (d : dict) (key : string) : option value :=
  match d with
  | [] => None
  | (k, v) :: d' => if String.eqb k key then Some v else dict_lookup d' key
  end.

Definition dict_has (d : dict) (key : string) : bool :=
  match dict_lookup d key with Some _ => true | None => false end.

(** [d[key] = v]: an existing key keeps its place, a new key goes last. *)
Fixpoint dict_set (d : dict) (key : string) (v : value) : dict :=
  match d with
  | [] => [(key, v)]
  | (k, v0) :: d' =>
      if String.eqb k key then (k, v) :: d' else (k, v0) :: dict_set d' key v
  end.

Definition dict_keys (d : dict) : list string := map fst d.

(** Truth value of an object, as [if x:] takes it. *)
Definition truthy (v : value) : bool :=
  match v with
  | VNone => false
  | VBool b => b
  | VInt n => negb (n =? 0)
  | VFloat x => negb (PrimFloat.eqb x 0%float)
  | VStr s => negb (String.eqb s "")
  | VList l => match l with [] => false | _ => true end
  | VDict d => match d with [] => false | _ => true end
  end.

(** An [Optional[str]] argument as a value: [None] or a str. *)
Definition of_optional_str (o : option string) : value :=
  match o with
  | None => VNone
  | Some s => VStr s
  end.

(* ===================================================================== *)
(** ** Strings *)

(** [s.rstrip("/")]: every trailing slash goes, not only one. *)
Fixpoint rstrip_slash (s : string) : string :=
  match s with
  | EmptyString => EmptyString
  | String c s' =>
      match rstrip_slash s' with
      | EmptyString =>
          if Ascii.eqb c "/" then EmptyString else String c EmptyString
      | r => String c r
      end
  end.

(** A Python [str] is a sequence of code points; a [string] here holds
    its UTF-8 bytes, a lone surrogate (which UTF-8 proper refuses, and which
    [json.loads] yields for an escape like [\ud800]) as the three bytes that
    the same scheme gives it: [237] and then a byte from [160] to [191]. *)

(** A byte [10xxxxxx], which continues a code point. *)
Definition is_continuation (c : ascii) : bool :=
  match c with
  | Ascii _ _ _ _ _ _ b6 b7 => b7 && negb b6
  end.

(** The second byte [101xxxxx] of a surrogate, after the byte [237]. *)
Definition is_surrogate_tail (c : ascii) : bool :=
  match c with
  | Ascii _ _ _ _ _ b5 b6 b7 => b7 && negb b6 && b5
  end.

(** The characters of a string, one string each (iterating over a [str]):
    each byte that opens a code point with the continuation bytes after it. *)
Fixpoint chars (s : string) : list string :=
  match s with
  | EmptyString => []
  | String c s' =>
      match s' with
      | String d _ =>
          if is_continuation d then
            match chars s' with
            | g :: gs => String c g :: gs
            | [] => [String c EmptyString]
            end
          else String c EmptyString :: chars s'
      | EmptyString => [String c EmptyString]
      end
  end.

(** The string holds a surrogate: no encoding of the console takes it. *)
Fixpoint has_surrogate (s : string) : bool :=
  match s with
  | EmptyString => false
  | String c s' =>
      match s' with
      | String d _ =>
          (Ascii.eqb c "237" && is_surrogate_tail d) || has_surrogate s'
      | EmptyString => false
      end
  end.

(** A value can be written to the console by [print] as an f-string field
    without a format: a str is written as it is, so it must hold no
    surrogate; the other types are written through [repr], which escapes. *)
Definition printable_value (v : value) : bool :=
  match v with
  | VStr s => negb (has_surrogate s)
  | _ => true
  end.

(* ===================================================================== *)
(** ** Exceptions *)

(** The ways a call can fail before any response arrives: the
    transport-level subclasses of [requests.exceptions.RequestException]. *)
Inductive transport_exn : Type :=
| ConnectionError                (* the connection could not be made *)
| Timeout.                       (* no answer within the time limit *)

(** The exceptions the client can meet. The first three are
    [RequestException]s, the others are builtin. *)
Inductive exn : Type :=
| TransportExn (t : transport_exn)
| HTTPError (status : Z)         (* raised by [raise_for_status] *)
| JSONDecodeError                (* [response.json()] on a body that is not JSON *)
| KeyError (key : string)
| TypeError
| ValueError
| OverflowError
| AttributeError
| UnicodeEncodeError             (* [print] of a str that holds a surrogate *)
| RecursionError.                (* a JSON body nested too deep to parse *)

(** [isinstance(e, requests.exceptions.RequestException)]. *)
Definition is_request_exception (e : exn) : bool :=
  match e with
  | TransportExn _ | HTTPError _ | JSONDecodeError => true
  | KeyError _ | TypeError | ValueError | OverflowError | AttributeError
  | UnicodeEncodeError | RecursionError => false
  end.

(** [isinstance(e, LookupError)]: [KeyError] and [IndexError] only. *)
Definition is_lookup_error (e : exn) : bool :=
  match e with
  | KeyError _ => true
  | _ => false
  end.

Inductive res (A : Type) : Type :=
| Ok (a : A)
| Raise (e : exn).
Arguments Ok {A} a.
Arguments Raise {A} e.

(* ===================================================================== *)
(** ** The world: session, clock and console *)

Inductive http_method : Type := GET | POST | PATCH.

(** One outbound call as the session receives it. *)
Record request : Type := mk_request {
  req_method : http_method;
  req_url : string;
  req_json : option value;       (* the [json=] argument *)
  req_timeout : option Z         (* the [timeout=] argument, in seconds *)
}.

(** Why [response.json()] gives no value: the body is not JSON, it holds an
    integer with more digits than Python converts, or it is nested deeper
    than the parser's recursion goes. *)
Inductive decode_failure : Type :=
| NotJSON
| DigitLimit
| TooDeep.

(** The response that the session hands back, after the redirects that it
    follows on its own. [resp_body] is [None] when the body does not parse
    to a value, and [resp_failure] then says why. *)
Record response : Type := mk_response {
  status_code : Z;
  resp_body : option value;
  resp_failure : decode_failure
}.

(** What one outbound call comes to: no response at all (the session raises
    a transport-level exception) or a response. *)
Inductive outcome : Type :=
| NoResponse (t : transport_exn)
| Response (r : response).

(** The lines the client prints, one constructor per [print] of the source,
    carrying the values that the line formats. *)
Inductive message : Type :=
| MsgSubmitted
| MsgId (v : value)
| MsgEstimates
| MsgEnergy (v : value)
| MsgCarbon (v : value)
| MsgCost (v : value)
| MsgMethod (v : value)
| MsgOptimizations
| MsgOptimization (i : Z) (opt : value)
| MsgAttemptFailed (n : Z) (max_retries : Z) (e : exn)
| MsgRetrying (wait_time : Z)
| MsgAllFailed.

Inductive event : Type :=
| Call (r : request)
| Sleep (secs : Z)
| Print (m : message).

(** [remote i r] is the outcome of the [i]-th call from now on, should it
    carry request [r]; [log] is what has happened so far, oldest first. *)
Record world : Type := mk_world {
  remote : nat -> request -> outcome;
  log : list event
}.

Definition M (A : Type) : Type := world -> res A * world.

Definition ret {A} (a : A) : M A := fun w => (Ok a, w).

Definition raise {A} (e : exn) : M A := fun w => (Raise e, w).

Definition bind {A B} (m : M A) (k : A -> M B) : M B :=
  fun w =>
    match m w with
    | (Ok a, w') => k a w'
    | (Raise e, w') => (Raise e, w')
    end.

(** [try: body  except <caught> as e: handler e]. *)
Definition try_except {A} (body : M A) (caught : exn -> bool)
    (handler : exn -> M A) : M A :=
  fun w =>
    match body w with
    | (Ok a, w') => (Ok a, w')
    | (Raise e, w') => if caught e then handler e w' else (Raise e, w')
    end.

Definition lift {A} (r : res A) : M A := fun w => (r, w).

Declare Scope py_scope.
Delimit Scope py_scope with py.
Notation "x <- m ;; k" := (bind m (fun x => k))
  (at level 100, m at next level, right associativity) : py_scope.
Notation "m ;;; k" := (bind m (fun _ => k))
  (at level 100, right associativity) : py_scope.
Local Open Scope py_scope.

Definition emit (e : event) : M unit :=
  fun w => (Ok tt, mk_world (remote w) (log w ++ [e])).

(** The text of a line can be encoded for the console: the fields that a
    line takes from the result as they are must be printable; the figures
    are formatted as numbers, and the other lines hold no text of the
    result. *)
Definition encodable_message (m : message) : bool :=
  match m with
  | MsgId v | MsgMethod v | MsgOptimization _ v => printable_value v
  | _ => true
  end.

(** [print(line)]: the line goes to the console, or, when it cannot be
    encoded, nothing is written and [UnicodeEncodeError] is raised. *)
Definition print (m : message) : M unit :=
  if encodable_message m then emit (Print m) else raise UnicodeEncodeError.

(** [time.sleep(secs)]. *)
Definition sleep (secs : Z) : M unit := emit (Sleep secs).

(** One call through the session: it is logged, the remote's next outcome
    is consumed, and a transport failure is raised. *)
Definition session_request (r : request) : M response :=
  fun w =>
    let w' := mk_world (fun i => remote w (S i)) (log w ++ [Call r]) in
    match remote w 0%nat r with
    | NoResponse t => (Raise (TransportExn t), w')
    | Response resp => (Ok resp, w')
    end.

(** [response.raise_for_status()] of [requests]: an [HTTPError] for a
    client error (4xx) or a server error (5xx), nothing otherwise. *)
Definition is_error_status (status : Z) : bool :=
  (400 <=? status) && (status <? 600).

Definition raise_for_status (r : response) : M unit :=
  if is_error_status (status_code r) then raise (HTTPError (status_code r))
  else ret tt.

(** What [response.json()] raises when it gives no value: on a body that
    is not JSON, [requests] (2.27 and later) raises its own
    [JSONDecodeError], which is a [RequestException]; the [ValueError] of
    the digit limit and the [RecursionError] of the parser pass through it
    as they are. *)
Definition decode_exn (f : decode_failure) : exn :=
  match f with
  | NotJSON => JSONDecodeError
  | DigitLimit => ValueError
  | TooDeep => RecursionError
  end.

(** [response.json()]. *)
Definition response_json (r : response) : M value :=
  match resp_body r with
  | Some v => ret v
  | None => raise (decode_exn (resp_failure r))
  end.

(* ===================================================================== *)
(** ** Operations on values *)

(** [v[key]] with a string key. Only a dict can be indexed by a string. *)
Definition getitem (v : value) (key : string) : res value :=
  match v with
  | VDict d =>
      match dict_lookup d key with
      | Some x => Ok x
      | None => Raise (KeyError key)
      end
  | _ => Raise TypeError
  end.

(** [v.get(key, default)]: a method of dicts only. *)
Definition dict_get (v : value) (key : string) (default : value) : res value :=
  match v with
  | VDict d =>
      match dict_lookup d key with
      | Some x => Ok x
      | None => Ok default
      end
  | _ => Raise AttributeError
  end.

(** An int converts to a float when it rounds to a finite binary64 number:
    from this bound on it does not. *)
Definition float_overflow_bound : Z := 2 ^ 1024 - 2 ^ 970.

(** The format specification [:.2f] applied to a value: numbers format
    (a bool is an int), a str has no format code [f], the other types take
    no format specification at all. *)
Definition format_2f (v : value) : res unit :=
  match v with
  | VBool _ => Ok tt
  | VInt n => if Z.abs n <? float_overflow_bound then Ok tt else Raise OverflowError
  | VFloat _ => Ok tt
  | VStr _ => Raise ValueError
  | VNone | VList _ | VDict _ => Raise TypeError
  end.

(** The items that a loop over [v[:3]] visits: the first three elements of
    a list, the first three characters of a str. The other types cannot be
    sliced (for a dict: [TypeError], unhashable slice, up to Python 3.11). *)
Definition slice3_items (v : value) : res (list value) :=
  match v with
  | VList l => Ok (firstn 3 l)
  | VStr s => Ok (map VStr (firstn 3 (chars s)))
  | _ => Raise TypeError
  end.

(* ===================================================================== *)
(** ** The client *)

Record AluminatiEnergyTracker : Type := mk_tracker {
  api_base_url : string
}.

Definition default_api_base_url : string := "https://aluminatiai.com".

(** [AluminatiEnergyTracker.__init__]. The session it creates is the
    [remote] of the world. *)
Definition __init__ (url : string) : AluminatiEnergyTracker :=
  {| api_base_url := rstrip_slash url |}.

(** Lines 54-64 of [submit_workload]: the JSON body. *)
Definition build_payload (model_size_gb : float) (num_gpus : Z)
    (gpu_type : string) (duration_hours : float) (utilization_pct : float)
    (use_smart_agent : bool) (notes : option string) : dict :=
  let payload :=
    [ ("model_size_gb", VFloat model_size_gb);
      ("num_gpus", VInt num_gpus);
      ("gpu_type", VStr gpu_type);
      ("duration_hours", VFloat duration_hours);
      ("utilization_pct", VFloat utilization_pct);
      ("use_smart_agent", VBool use_smart_agent) ] in
  if truthy (of_optional_str notes)
  then dict_set payload "notes" (of_optional_str notes)
  else payload.

(** The request of every attempt (lines 69-73). *)
Definition submit_request (self : AluminatiEnergyTracker) (payload : dict) : request :=
  {| req_method := POST;
     req_url := (api_base_url self ++ "/api/workloads")%string;
     req_json := Some (VDict payload);
     req_timeout := Some 30 |}.

(** [for i, opt in enumerate(items, i): print(f"   {i}. {opt}")]. *)
Fixpoint print_optimizations (i : Z) (items : list value) : M unit :=
  match items with
  | [] => ret tt
  | opt :: rest => print (MsgOptimization i opt);;; print_optimizations (i + 1) rest
  end.

(** Lines 78-96: the report on the console. Every subscript and every
    format specification is evaluated where the source has it, so the
    report stops at the first one that raises. *)
Definition print_results (result : value) : M unit :=
  print MsgSubmitted;;;
  id <- lift (getitem result "id");;
  print (MsgId id);;;
  print MsgEstimates;;;
  estimates <- lift (getitem result "estimates");;
  kwh <- lift (getitem estimates "kwh");;
  lift (format_2f kwh);;;
  print (MsgEnergy kwh);;;
  estimates <- lift (getitem result "estimates");;
  carbon_kg <- lift (getitem estimates "carbon_kg");;
  lift (format_2f carbon_kg);;;
  print (MsgCarbon carbon_kg);;;
  estimates <- lift (getitem result "estimates");;
  cost_usd <- lift (getitem estimates "cost_usd");;
  lift (format_2f cost_usd);;;
  print (MsgCost cost_usd);;;
  estimates <- lift (getitem result "estimates");;
  method <- lift (dict_get estimates "calculation_method" (VStr "N/A"));;
  print (MsgMethod method);;;
  insights <- lift (dict_get result "agent_insights" VNone);;
  if truthy insights then
    print MsgOptimizations;;;
    insights <- lift (getitem result "agent_insights");;
    optimizations <- lift (getitem insights "optimizations");;
    items <- lift (slice3_items optimizations);;
    print_optimizations 1 items
  else ret tt.

(** The body of the [try] (lines 69-98): one attempt. *)
Definition attempt_body (self : AluminatiEnergyTracker) (payload : dict) : M value :=
  response <- session_request (submit_request self payload);;
  raise_for_status response;;;
  result <- response_json response;;
  print_results result;;;
  ret result.

(** [range(n)]. *)
Definition py_range (n : Z) : list Z := map Z.of_nat (seq 0 (Z.to_nat n)).

(** Lines 67-111: the loop over the attempts and the [return {}] after it. *)
Fixpoint retry_loop (self : AluminatiEnergyTracker) (payload : dict)
    (max_retries : Z) (attempts : list Z) : M value :=
  match attempts with
  | [] => ret (VDict [])
  | attempt :: rest =>
      try_except (attempt_body self payload) is_request_exception
        (fun e =>
           print (MsgAttemptFailed (attempt + 1) max_retries e);;;
           if attempt <? max_retries - 1 then
             let wait_time := 2 ^ attempt in
             print (MsgRetrying wait_time);;;
             sleep wait_time;;;
             retry_loop self payload max_retries rest
           else
             print MsgAllFailed;;;
             raise e)
  end.

Definition default_utilization_pct : float := 80%float.
Definition default_use_smart_agent : bool := false.
Definition default_notes : option string := None.
Definition default_max_retries : Z := 3.

Definition submit_workload (self : AluminatiEnergyTracker)
    (model_size_gb : float) (num_gpus : Z) (gpu_type : string)
    (duration_hours : float) (utilization_pct : float)
    (use_smart_agent : bool) (notes : option string) (max_retries : Z)
    : M value :=
  let payload :=
    build_payload model_size_gb num_gpus gpu_type duration_hours
      utilization_pct use_smart_agent notes in
  retry_loop self payload max_retries (py_range max_retries).

Definition workload_url (self : AluminatiEnergyTracker) (workload_id : string) : string :=
  (api_base_url self ++ "/api/workloads/" ++ workload_id)%string.

Definition get_request (self : AluminatiEnergyTracker) (workload_id : string) : request :=
  {| req_method := GET;
     req_url := workload_url self workload_id;
     req_json := None;
     req_timeout := None |}.

Definition get_workload (self : AluminatiEnergyTracker) (workload_id : string)
    : M value :=
  response <- session_request (get_request self workload_id);;
  raise_for_status response;;;
  response_json response.

Definition patch_request (self : AluminatiEnergyTracker)
    (workload_id status : string) : request :=
  {| req_method := PATCH;
     req_url := workload_url self workload_id;
     req_json := Some (VDict [("status", VStr status)]);
     req_timeout := None |}.

Definition update_status (self : AluminatiEnergyTracker)
    (workload_id status : string) : M value :=
  response <- session_request (patch_request self workload_id status);;
  raise_for_status response;;;
  response_json response.

(* ===================================================================== *)
(** ** Observing a run *)

Definition is_print (e : event) : bool :=
  match e with Print _ => true | _ => false end.

Definition only_prints (evs : list event) : bool := forallb is_print evs.

(** The calls and the sleeps of a log in their order, the console left out. *)
Definition schedule (evs : list event) : list event :=
  filter (fun e => negb (is_print e)) evs.

Fixpoint calls_of (evs : list event) : list request :=
  match evs with
  | [] => []
  | Call r :: evs' => r :: calls_of evs'
  | _ :: evs' => calls_of evs'
  end.

Fixpoint sleeps_of (evs : list event) : list Z :=
  match evs with
  | [] => []
  | Sleep s :: evs' => s :: sleeps_of evs'
  | _ :: evs' => sleeps_of evs'
  end.

Definition total (l : list Z) : Z := fold_right Z.add 0 l.

(** The remote after its first [k] outcomes are consumed. *)
Definition later (k : nat) (f : nat -> request -> outcome) : nat -> request -> outcome :=
  fun i => f (k + i)%nat.

(** A world where nothing answers and nothing has happened. *)
Definition blank : world := mk_world (fun _ _ => NoResponse ConnectionError) [].

(** What the report on the console comes to for a result: it only prints,
    so the world it runs in does not matter. *)
Definition report (result : value) : res unit := fst (print_results result blank).

(** What one attempt comes to, from the outcome of its call. *)
Definition attempt_result (o : outcome) : res value :=
  match o with
  | NoResponse t => Raise (TransportExn t)
  | Response r =>
      if is_error_status (status_code r) then Raise (HTTPError (status_code r))
      else match resp_body r with
           | None => Raise (decode_exn (resp_failure r))
           | Some v => match report v with
                       | Ok _ => Ok v
                       | Raise e => Raise e
                       end
           end
  end.

(** The attempt raises a [RequestException]: it is one the loop catches. *)
Definition caught (o : outcome) : bool :=
  match attempt_result o with
  | Raise e => is_request_exception e
  | Ok _ => false
  end.

(** A transport error or an error status: the failures of the error
    taxonomy. *)
Definition fails (o : outcome) : bool :=
  match o with
  | NoResponse _ => true
  | Response r => is_error_status (status_code r)
  end.

Definition is_2xx (status : Z) : bool := (200 <=? status) && (status <? 300).

(** A response with a success status and a body that parses to [v]. *)
Definition succeeds_with (o : outcome) (v : value) : Prop :=
  exists r, o = Response r /\ is_2xx (status_code r) = true /\ resp_body r = Some v.

(** The values that [:.2f] formats. *)
Definition is_number (v : value) : bool :=
  match v with
  | VBool _ | VFloat _ => true
  | VInt n => Z.abs n <? float_overflow_bound
  | _ => false
  end.

Definition has_number (d : dict) (key : string) : bool :=
  match dict_lookup d key with
  | Some v => is_number v
  | None => false
  end.

Definition insights_ok (insights : value) : bool :=
  negb (truthy insights) ||
  match insights with
  | VDict d =>
      match dict_lookup d "optimizations" with
      | Some (VList _) | Some (VStr _) => true
      | _ => false
      end
  | _ => false
  end.

(** The shape a result must have for the report to go through: an [id], the
    three estimates as numbers, and insights that are empty or carry a
    sequence of optimizations. *)
Definition well_formed_result (result : value) : bool :=
  match result with
  | VDict d =>
      dict_has d "id" &&
      match dict_lookup d "estimates" with
      | Some (VDict est) =>
          has_number est "kwh" && has_number est "carbon_kg" &&
          has_number est "cost_usd"
      | _ => false
      end &&
      match dict_lookup d "agent_insights" with
      | Some insights => insights_ok insights
      | None => true
      end
  | _ => false
  end.

(** The strings that the report prints as they are can be encoded: the
    [id], the [calculation_method] of the estimates, and the items that the
    loop over the optimizations visits. *)
Definition printable_opt (o : option value) : bool :=
  match o with
  | Some v => printable_value v
  | None => true
  end.

Definition printable_items (optimizations : value) : bool :=
  match slice3_items optimizations with
  | Ok items => forallb printable_value items
  | Raise _ => true
  end.

Definition printable_insights (insights : value) : bool :=
  negb (truthy insights) ||
  match insights with
  | VDict d =>
      match dict_lookup d "optimizations" with
      | Some optimizations => printable_items optimizations
      | None => true
      end
  | _ => true
  end.

Definition printable_id (result : value) : bool :=
  match result with
  | VDict d => printable_opt (dict_lookup d "id")
  | _ => true
  end.

Definition printable_result (result : value) : bool :=
  match result with
  | VDict d =>
      printable_opt (dict_lookup d "id") &&
      match dict_lookup d "estimates" with
      | Some (VDict est) => printable_opt (dict_lookup est "calculation_method")
      | _ => true
      end &&
      match dict_lookup d "agent_insights" with
      | Some insights => printable_insights insights
      | None => true
      end
  | _ => true
  end.

(** The schedule of [n] attempts that start at attempt number [attempt]:
    a call, then [2^attempt] seconds of sleep before the next one, and
    nothing after the last call. *)
Fixpoint backoff (r : request) (attempt : Z) (n : nat) : list event :=
  match n with
  | O => []
  | S O => [Call r]
  | S n' => Call r :: Sleep (2 ^ attempt) :: backoff r (attempt + 1) n'
  end.

(** [sum(2^i for i in 0..max_retries-2)]. *)
Definition worst_case_sleep (max_retries : Z) : Z :=
  total (map (fun i => 2 ^ i) (py_range (max_retries - 1))).

(** The result of a run of the loop that made [n] calls with request [r]:
    the default of line 111 when there was none, what the last attempt came
    to otherwise. *)
Definition run_result (r : request) (w : world) (n : nat) : res value :=
  match n with
  | O => Ok (VDict [])
  | S k => attempt_result (remote w k r)
  end.

(** The failure that an outcome is, if it is one. *)
Definition failure_of (o : outcome) : option exn :=
  match o with
  | NoResponse t => Some (TransportExn t)
  | Response r =>
      if is_error_status (status_code r) then Some (HTTPError (status_code r))
      else None
  end.

(** What a method with one call and no handler comes to. *)
Definition single_call_result (o : outcome) : res value :=
  match o with
  | NoResponse t => Raise (TransportExn t)
  | Response r =>
      if is_error_status (status_code r) then Raise (HTTPError (status_code r))
      else match resp_body r with
           | Some v => Ok v
           | None => Raise (decode_exn (resp_failure r))
           end
  end.

(** A parsed body is short of what the report reads first: it has no [id],
    no [estimates], or its estimates lack one of the three figures. *)
Definition has_key (v : value) (key : string) : bool :=
  match v with
  | VDict d => dict_has d key
  | _ => false
  end.

Definition lacks_required (result : value) : bool :=
  negb (has_key result "id") ||
  match getitem result "estimates" with
  | Ok estimates =>
      negb (has_key estimates "kwh") || negb (has_key estimates "carbon_kg") ||
      negb (has_key estimates "cost_usd")
  | Raise _ => true
  end.

(** The body is an object, and so is its [estimates] if it has one, with a
    number for each of the three figures that it does have. *)
Definition number_or_absent (d : dict) (key : string) : bool :=
  match dict_lookup d key with
  | Some v => is_number v
  | None => true
  end.

Definition figures_are_numbers (result : value) : bool :=
  match result with
  | VDict d =>
      match dict_lookup d "estimates" with
      | Some (VDict est) =>
          number_or_absent est "kwh" && number_or_absent est "carbon_kg" &&
          number_or_absent est "cost_usd"
      | Some _ => false
      | None => true
      end
  | _ => false
  end.

(** The last character of a string is a slash. *)
Fixpoint ends_with_slash (s : string) : bool :=
  match s with
  | EmptyString => false
  | String c EmptyString => Ascii.eqb c "/"
  | String _ s' => ends_with_slash s'
  end.

Fixpoint slashes (n : nat) : string :=
  match n with
  | O => EmptyString
  | S n' => String "/" (slashes n')
  end.

(** The six fields that every body carries, in the order of the source. *)
Definition required_fields : list string :=
  [ "model_size_gb"; "num_gpus"; "gpu_type"; "duration_hours";
    "utilization_pct"; "use_smart_agent" ].

(* ===================================================================== *)
(** ** Example data *)

(** The scenario of the usage example: the first call of the script and a
    stub of the service. *)
Definition example_tracker : AluminatiEnergyTracker :=
  __init__ "https://aluminatiai.com".

Definition example_submit (max_retries : Z) : M value :=
  submit_workload example_tracker 70 8 "H100" 72 85 true None max_retries.

Definition example_request : request :=
  submit_request example_tracker (build_payload 70 8 "H100" 72 85 true None).

#[warnings="-inexact-float"] Definition stub_result : value :=
  VDict [ ("id", VStr "abc123"); ("status", VStr "submitted");
          ("estimates",
           VDict [ ("kwh", VFloat 1200.5); ("carbon_kg", VFloat 600.2);
                   ("cost_usd", VFloat 150) ]) ].

(** A remote that gives every call the same outcome. *)
Definition always (o : outcome) : world := mk_world (fun _ _ => o) [].

(** A remote whose first [k] calls time out and whose later calls get [o]. *)
Definition after_timeouts (k : nat) (o : outcome) : world :=
  mk_world (fun i _ => if (i <? k)%nat then NoResponse Timeout else o) [].

Definition respond (status : Z) (body : option value) : outcome :=
  Response (mk_response status body NotJSON).

(** A service that is down, one that answers 503, one that serves the stub
    with 200, and one that serves it with 300. *)
Definition down : world := always (NoResponse ConnectionError).
Definition unavailable : world := always (respond 503 None).
Definition serving : world := always (respond 200 (Some stub_result)).
Definition multiple_choices : world := always (respond 300 (Some stub_result)).

(** Bodies that parse but are not what the report expects. *)
Definition body_without_id : value := VDict [("status", VStr "submitted")].

(** The str that [json.loads] gives for the JSON string with the one escape
    [\ud800]: a lone surrogate. *)
Definition lone_surrogate : string :=
  String "237" (String "160" (String "128" EmptyString)).

(** The stub's result with that str as its id, and a body with nothing else. *)
Definition body_with_surrogate_id : value :=
  VDict [ ("id", VStr lone_surrogate); ("status", VStr "submitted");
          ("estimates",
           VDict [ ("kwh", VInt 1200); ("carbon_kg", VInt 600);
                   ("cost_usd", VInt 150) ]) ].

Definition body_with_surrogate_id_only : value :=
  VDict [("id", VStr lone_surrogate)].

(** The word [etes] with acute accents on its first and third letter, in
    UTF-8: four characters, six bytes. *)
Definition accented_word : string :=
  String "195" (String "169" (String "t" (String "195" (String "169"
    (String "s" EmptyString))))).

Definition body_with_text_figure : value :=
  VDict [ ("id", VStr "abc123");
          ("estimates", VDict [("kwh", VStr "1200.5")]) ].

(** A result that carries no [RequestException]: a value or a builtin
    exception, which no handler of the client catches. *)
Definition builtin {A} (r : res A) : Prop :=
  match r with
  | Ok _ => True
  | Raise e => is_request_exception e = false
  end.

(** A computation that touches the console only: its result and its lines
    are the same in every world, and no handler catches what it raises. *)
Definition console_only {A} (m : M A) : Prop :=
  exists r evs,
    builtin r /\ only_prints evs = true /\
    forall w, m w = (r, mk_world (remote w) (log w ++ evs)).

(* ===================================================================== *)
(** ** The whole log of a run *)

Fixpoint prints_of (evs : list event) : list message :=
  match evs with
  | [] => []
  | Print m :: evs' => m :: prints_of evs'
  | _ :: evs' => prints_of evs'
  end.

(** The lines of the report on a result, in their order. *)
Definition report_lines (result : value) : list message :=
  prints_of (log (snd (print_results result blank))).

(** The lines that one attempt prints inside the [try]: the report, when
    the response gets that far. *)
Definition attempt_lines (o : outcome) : list message :=
  match o with
  | NoResponse _ => []
  | Response r =>
      if is_error_status (status_code r) then []
      else match resp_body r with
           | None => []
           | Some v => report_lines v
           end
  end.

(** The [RequestException] that an outcome raises, when it raises one: the
    transport exception, the [HTTPError] of an error status, or else the
    decoding error of the body. *)
Definition request_exception_of (o : outcome) : exn :=
  match o with
  | NoResponse t => TransportExn t
  | Response r =>
      if is_error_status (status_code r) then HTTPError (status_code r)
      else JSONDecodeError
  end.

(** What the log gains from attempts that were caught and followed by
    another one: for each, the call, the two lines of the handler and the
    sleep. [es] are the exceptions, [attempt] is the number of the first. *)
Fixpoint failure_entries (r : request) (max_retries : Z) (attempt : Z)
    (es : list exn) : list event :=
  match es with
  | [] => []
  | e :: es' =>
      [ Call r; Print (MsgAttemptFailed (attempt + 1) max_retries e);
        Print (MsgRetrying (2 ^ attempt)); Sleep (2 ^ attempt) ]
      ++ failure_entries r max_retries (attempt + 1) es'
  end.

(** The exceptions of the first [k] outcomes of a remote for request [r]. *)
Definition first_exceptions (f : nat -> request -> outcome) (r : request)
    (k : nat) : list exn :=
  map (fun i => request_exception_of (f i r)) (seq 0 k).

(** What the log gains from the attempt that decides a run: the call, and
    then either the two lines of the handler that raises again, when the
    attempt is caught, or the lines of the report. *)
Definition final_entries (r : request) (max_retries : Z) (attempt : Z)
    (o : outcome) : list event :=
  Call r ::
  if caught o then
    [ Print (MsgAttemptFailed (attempt + 1) max_retries (request_exception_of o));
      Print MsgAllFailed ]
  else map Print (attempt_lines o).

(** The optimizations as the report numbers them, from [i] on. *)
Fixpoint numbered (i : Z) (items : list value) : list message :=
  match items with
  | [] => []
  | opt :: rest => MsgOptimization i opt :: numbered (i + 1) rest
  end.

(* ===================================================================== *)
(** ** The script of the usage example *)

(** The lines that the script prints itself, one constructor per kind of
    [print] of lines 152-213. *)
Inductive script_line : Type :=
| LnWelcome                        (* line 153 *)
| LnRule (gap : bool)              (* ["=" * 60], after an empty line when [gap] *)
| LnTitle (title : string)
| LnWorkloadId (v : value)
| LnStatus (v : value)
| LnCreated (v : value)
| LnStatusUpdated (status : string)
| LnCompleted.                     (* line 212 *)

(** What happens while the script runs: an event of the client, or a line
    of the script. *)
Inductive script_event : Type :=
| Client (e : event)
| Line (l : script_line).

Record script_world : Type := mk_script_world {
  s_remote : nat -> request -> outcome;
  s_log : list script_event
}.

Definition Script (A : Type) : Type := script_world -> res A * script_world.

Definition sret {A} (a : A) : Script A := fun w => (Ok a, w).

Definition sbind {A B} (m : Script A) (k : A -> Script B) : Script B :=
  fun w =>
    match m w with
    | (Ok a, w') => k a w'
    | (Raise e, w') => (Raise e, w')
    end.

Definition slift {A} (r : res A) : Script A := fun w => (r, w).

(** The text of a line of the script can be encoded for the console. *)
Definition encodable_line (l : script_line) : bool :=
  match l with
  | LnWorkloadId v | LnStatus v | LnCreated v => printable_value v
  | _ => true
  end.

(** [print(line)] in the script: as in the client, a line that cannot be
    encoded is not written and raises [UnicodeEncodeError]. *)
Definition say (l : script_line) : Script unit :=
  fun w =>
    if encodable_line l
    then (Ok tt, mk_script_world (s_remote w) (s_log w ++ [Line l]))
    else (Raise UnicodeEncodeError, w).

(** A computation of the client inside the script: it runs against the
    script's remote, and what it logs goes to the script's log. *)
Definition client {A} (m : M A) : Script A :=
  fun w =>
    let (r, w') := m (mk_world (s_remote w) []) in
    (r, mk_script_world (remote w') (s_log w ++ map Client (log w'))).

Declare Scope script_scope.
Delimit Scope script_scope with script.
Notation "x <- m ;; k" := (sbind m (fun x => k))
  (at level 100, m at next level, right associativity) : script_scope.
Notation "m ;;; k" := (sbind m (fun _ => k))
  (at level 100, right associativity) : script_scope.

Section Script.

Local Open Scope script_scope.

(** [str(v)] for the values that are not a str already. *)
Variable str_of : value -> string.

(** A value inside an f-string, without a format specification. *)
Definition py_str (v : value) : string :=
  match v with
  | VStr s => s
  | _ => str_of v
  end.

(** The three lines that open each example. *)
Definition heading (gap : bool) (title : string) : Script unit :=
  say (LnRule gap);;;
  say (LnTitle title);;;
  say (LnRule false).

Definition script_tracker : AluminatiEnergyTracker :=
  __init__ "https://aluminatiai.com".

Definition notes1 : string := "Fine-tuning LLaMA 70B on proprietary dataset".
Definition notes2 : string := "Production inference server for chat API".

(** Lines 158-171: the first workload. *)
Definition example1 (tracker : AluminatiEnergyTracker) : Script value :=
  heading false "Example 1: Large LLM Training (70B parameters)";;;
  client (submit_workload tracker 70 8 "H100" 72 85 true
            (Some notes1) default_max_retries).

(** Lines 173-186: the second workload. *)
Definition example2 (tracker : AluminatiEnergyTracker) : Script value :=
  heading true "Example 2: Inference Serving";;;
  client (submit_workload tracker 13 2 "A100" 24 60 false
            (Some notes2) default_max_retries).

(** Lines 188-196: the details of the first workload. *)
Definition example3 (tracker : AluminatiEnergyTracker) (result1 : value)
    : Script unit :=
  heading true "Example 3: Retrieve Workload Details";;;
  id1 <- slift (getitem result1 "id");;
  workload_details <- client (get_workload tracker (py_str id1));;
  v <- slift (getitem workload_details "id");;
  say (LnWorkloadId v);;;
  v <- slift (getitem workload_details "status");;
  say (LnStatus v);;;
  v <- slift (getitem workload_details "created_at");;
  say (LnCreated v).

(** Lines 198-209: the two updates of its status, a second apart. *)
Definition example4 (tracker : AluminatiEnergyTracker) (result1 : value)
    : Script unit :=
  heading true "Example 4: Update Status (Monitoring)";;;
  id1 <- slift (getitem result1 "id");;
  client (update_status tracker (py_str id1) "running");;;
  say (LnStatusUpdated "running");;;
  client (sleep 1);;;
  id1 <- slift (getitem result1 "id");;
  client (update_status tracker (py_str id1) "completed");;;
  say (LnStatusUpdated "completed").

(** Lines 152-213. *)
Definition main : Script unit :=
  say LnWelcome;;;
  let tracker := script_tracker in
  result1 <- example1 tracker;;
  result2 <- example2 tracker;;
  example3 tracker result1;;;
  example4 tracker result1;;;
  say (LnRule true);;;
  say LnCompleted;;;
  say (LnRule false).

End Script.

(** The requests of the script. *)
Definition script_request1 : request :=
  submit_request script_tracker
    (build_payload 70 8 "H100" 72 85 true (Some notes1)).

Definition script_request2 : request :=
  submit_request script_tracker
    (build_payload 13 2 "A100" 24 60 false (Some notes2)).

(** The client's events of a script log, the console left out. *)
Fixpoint client_schedule (evs : list script_event) : list event :=
  match evs with
  | [] => []
  | Client (Print _) :: evs' => client_schedule evs'
  | Client e :: evs' => e :: client_schedule evs'
  | Line _ :: evs' => client_schedule evs'
  end.

(** A response without an error status whose body parses to [v]. *)
Definition answers (o : outcome) (v : value) : Prop :=
  exists resp,
    o = Response resp /\ is_error_status (status_code resp) = false /\
    resp_body resp = Some v.

(** What one line on the details comes to: its subscript raises, or the
    value cannot be encoded, or the line is printed. *)
Definition detail_result (details : value) (key : string) : res unit :=
  match getitem details key with
  | Raise e => Raise e
  | Ok v => if printable_value v then Ok tt else Raise UnicodeEncodeError
  end.

(** What the three lines on the details (lines 194-196) come to: the first
    of them that raises, if any. *)
Definition details_result (details : value) : res unit :=
  match detail_result details "id" with
  | Raise e => Raise e
  | Ok _ =>
      match detail_result details "status" with
      | Raise e => Raise e
      | Ok _ => detail_result details "created_at"
      end
  end.

(** A script world whose remote gives every call the same outcome. *)
Definition script_always (o : outcome) : script_world :=
  mk_script_world (fun _ _ => o) [].

(** The stub's result with four optimizations from the agent. *)
Definition stub_insights : value :=
  VDict [ ("id", VStr "abc123");
          ("estimates",
           VDict [ ("kwh", VInt 1200); ("carbon_kg", VInt 600);
                   ("cost_usd", VInt 150); ("calculation_method", VStr "agent") ]);
          ("agent_insights",
           VDict [ ("optimizations",
                    VList [VStr "a"; VStr "b"; VStr "c"; VStr "d"]) ]) ].

(** [str] for the script's stubs, whose ids are strings already. *)
Definition no_str (v : value) : string := "".

(** A script world whose remote gives its first [k] calls one outcome and
    the later calls another. *)
Definition script_then (k : nat) (o1 o2 : outcome) : script_world :=
  mk_script_world (fun i _ => if (i <? k)%nat then o1 else o2) [].

(** A stub of the service for the script: the result with a creation time,
    whatever the request. *)
Definition stub_details : value :=
  VDict [ ("id", VStr "abc123"); ("status", VStr "submitted");
          ("estimates",
           VDict [ ("kwh", VInt 1200); ("carbon_kg", VInt 600);
                   ("cost_usd", VInt 150) ]);
          ("created_at", VStr "2025-01-01T00:00:00Z") ].

(* ===================================================================== *)
(** ** The console *)

Lemma console_ret {A} (a : A) : console_only (ret a).
Proof.
  exists (Ok a), []. repeat split.
  intros [f l]. unfold ret. simpl. now rewrite app_nil_r.
Qed.

Lemma console_lift {A} (r : res A) : builtin r -> console_only (lift r).
Proof.
  intros Hr. exists r, []. repeat split; auto.
  intros [f l]. unfold lift. simpl. now rewrite app_nil_r.
Qed.

Lemma console_print (m : message) : console_only (print m).
Proof.
  unfold print. destruct (encodable_message m).
  - exists (Ok tt), [Print m]. repeat split.
  - exists (Raise UnicodeEncodeError), []. repeat split.
    intros [f l]. unfold raise. simpl. now rewrite app_nil_r.
Qed.

Lemma console_bind {A B} (m : M A) (k : A -> M B) :
  console_only m -> (forall a, console_only (k a)) -> console_only (bind m k).
Proof.
  intros (r & evs & Hr & Hevs & Hm) Hk.
  destruct r as [a | e].
  - destruct (Hk a) as (r' & evs' & Hr' & Hevs' & Hka).
    exists r', (evs ++ evs'). repeat split; auto.
    + unfold only_prints in *. rewrite forallb_app, Hevs, Hevs'. reflexivity.
    + intros w. unfold bind. rewrite Hm, Hka. simpl. now rewrite app_assoc.
  - exists (Raise e), evs. repeat split; auto.
    intros w. unfold bind. now rewrite Hm.
Qed.

Lemma getitem_builtin (v : value) (key : string) : builtin (getitem v key).
Proof.
  destruct v; simpl; auto. destruct (dict_lookup d key); simpl; auto.
Qed.

Lemma dict_get_builtin (v : value) (key : string) (default : value) :
  builtin (dict_get v key default).
Proof.
  destruct v; simpl; auto. destruct (dict_lookup d key); simpl; auto.
Qed.

Lemma format_2f_builtin (v : value) : builtin (format_2f v).
Proof.
  destruct v; simpl; auto. destruct (Z.abs n <? float_overflow_bound); simpl; auto.
Qed.

Lemma slice3_items_builtin (v : value) : builtin (slice3_items v).
Proof.
  destruct v; simpl; auto.
Qed.

Lemma console_print_optimizations (items : list value) :
  forall i, console_only (print_optimizations i items).
Proof.
  induction items as [| opt rest IH]; intros i; simpl.
  - apply console_ret.
  - apply console_bind; [apply console_print | intros _; apply IH].
Qed.

Create HintDb console.

#[local] Hint Resolve console_ret console_print console_print_optimizations
  getitem_builtin dict_get_builtin format_2f_builtin slice3_items_builtin : console.

Ltac console_step :=
  first [ solve [auto with console]
        | apply console_bind; [| intro]
        | apply console_lift
        | match goal with |- console_only (if ?b then _ else _) => destruct b end ].

Lemma console_print_results (result : value) : console_only (print_results result).
Proof.
  unfold print_results. repeat console_step.
Qed.

(** The report leaves the remote alone, adds lines to the log and nothing
    else, and comes to [report result] wherever it runs. *)
Lemma print_results_run (result : value) (w : world) :
  exists evs,
    only_prints evs = true /\
    print_results result w = (report result, mk_world (remote w) (log w ++ evs)).
Proof.
  destruct (console_print_results result) as (r & evs & _ & Hevs & Hrun).
  exists evs. split; auto.
  unfold report. rewrite (Hrun blank), (Hrun w). reflexivity.
Qed.

Lemma report_builtin (result : value) : builtin (report result).
Proof.
  destruct (console_print_results result) as (r & evs & Hr & _ & Hrun).
  unfold report. now rewrite (Hrun blank).
Qed.

Lemma print_optimizations_result (items : list value) :
  forall (i : Z) (w : world),
    fst (print_optimizations i items w) =
    if forallb printable_value items then Ok tt else Raise UnicodeEncodeError.
Proof.
  induction items as [| opt rest IH]; intros i w; cbn [print_optimizations forallb].
  - reflexivity.
  - unfold bind, print. cbn [encodable_message].
    destruct (printable_value opt); cbn [andb].
    + unfold emit. apply IH.
    + reflexivity.
Qed.

Lemma format_2f_cases (v : value) :
  (is_number v = true /\ format_2f v = Ok tt) \/
  (is_number v = false /\ exists e, format_2f v = Raise e).
Proof.
  destruct v; simpl; eauto.
  destruct (Z.abs n <? float_overflow_bound); eauto.
Qed.

Ltac settle :=
  solve [split;
         [ (reflexivity || discriminate || congruence)
         | rewrite ?andb_false_r; (reflexivity || discriminate || congruence) ]].

Ltac number_step d key :=
  destruct (dict_lookup d key) as [?v |]; cbn; [| settle];
  match goal with
  | |- context [format_2f ?v] =>
      destruct (format_2f_cases v) as [[-> ->] | [-> [? ->]]]; cbn; [| settle]
  end.

Ltac print_step :=
  match goal with
  | |- context [if printable_value ?v then _ else _] =>
      destruct (printable_value v); cbn; [| settle]
  end.

(** The report goes through exactly on the well-formed results whose
    printed strings can be encoded. *)
Lemma report_ok_iff (result : value) :
  report result = Ok tt <->
  well_formed_result result && printable_result result = true.
Proof.
  unfold report, print_results, well_formed_result, printable_result,
    has_number, dict_has, printable_opt.
  unfold bind, lift, print, emit, ret, raise.
  destruct result as [| | | | | | d]; cbn; try settle.
  destruct (dict_lookup d "id") as [id |]; cbn; [| settle].
  print_step.
  destruct (dict_lookup d "estimates") as [[| | | | | | est] |]; cbn; try settle.
  number_step est "kwh".
  number_step est "carbon_kg".
  number_step est "cost_usd".
  destruct (dict_lookup est "calculation_method") as [m |]; cbn;
    [print_step |];
    (destruct (dict_lookup d "agent_insights") as [ins |]; cbn; [| settle]);
    unfold insights_ok, printable_insights, printable_items;
    (destruct (truthy ins); cbn; [| settle]);
    (destruct ins as [| | | | | | di]; cbn; try settle);
    (destruct (dict_lookup di "optimizations") as [[] |]; cbn; try settle);
    rewrite print_optimizations_result;
    match goal with
    | |- context [forallb printable_value ?l] =>
        destruct (forallb printable_value l); settle
    end.
Qed.


(* ===================================================================== *)
(** ** Logs *)

Lemma schedule_app (l1 l2 : list event) :
  schedule (l1 ++ l2) = schedule l1 ++ schedule l2.
Proof. unfold schedule. apply filter_app. Qed.

Lemma schedule_prints (evs : list event) :
  only_prints evs = true -> schedule evs = [].
Proof.
  induction evs as [| e evs IH]; simpl; auto.
  intros H. apply andb_prop in H as [He Hevs]. rewrite He. simpl. auto.
Qed.

Lemma calls_of_schedule (evs : list event) :
  calls_of (schedule evs) = calls_of evs.
Proof.
  induction evs as [| [r | s | m] evs IH]; simpl; auto. now rewrite IH.
Qed.

Lemma sleeps_of_schedule (evs : list event) :
  sleeps_of (schedule evs) = sleeps_of evs.
Proof.
  induction evs as [| [r | s | m] evs IH]; simpl; auto. now rewrite IH.
Qed.

Lemma backoff_S (r : request) (attempt : Z) (n : nat) :
  (0 < n)%nat ->
  backoff r attempt (S n) = Call r :: Sleep (2 ^ attempt) :: backoff r (attempt + 1) n.
Proof. destruct n; [lia | reflexivity]. Qed.

Lemma calls_of_backoff (r : request) (n : nat) :
  forall attempt, calls_of (backoff r attempt n) = repeat r n.
Proof.
  induction n as [| n IH]; intros attempt; auto.
  destruct n as [| n']; auto.
  rewrite backoff_S by lia. cbn [calls_of]. rewrite IH. reflexivity.
Qed.

Lemma sleeps_of_backoff (r : request) (n : nat) :
  forall attempt : nat,
    sleeps_of (backoff r (Z.of_nat attempt) n) =
    map (fun i => 2 ^ Z.of_nat i) (seq attempt (n - 1)).
Proof.
  induction n as [| n IH]; intros attempt; auto.
  destruct n as [| n']; auto.
  rewrite backoff_S by lia. cbn [sleeps_of].
  replace (Z.of_nat attempt + 1) with (Z.of_nat (S attempt)) by lia.
  rewrite IH. replace (S (S n') - 1)%nat with (S (S n' - 1)) by lia.
  reflexivity.
Qed.

(* ===================================================================== *)
(** ** The retry loop *)

Section RetryLoop.

Variable self : AluminatiEnergyTracker.
Variable payload : dict.
Variable max_retries : Z.

Let req : request := submit_request self payload.

(** One attempt: one call, the next outcome of the remote consumed, lines
    on the console, and the result that the outcome decides. *)
Lemma attempt_body_run (w : world) :
  exists evs,
    only_prints evs = true /\
    attempt_body self payload w =
    (attempt_result (remote w 0%nat req),
     mk_world (later 1 (remote w)) (log w ++ Call req :: evs)).
Proof.
  unfold attempt_body, bind, session_request, attempt_result. fold req.
  destruct (remote w 0%nat req) as [t | r].
  - exists []. split; reflexivity.
  - unfold raise_for_status, response_json.
    destruct (is_error_status (status_code r)).
    + exists []. split; reflexivity.
    + unfold ret, raise. destruct (resp_body r) as [v |].
      * match goal with
        | |- context [print_results v ?w1] =>
            destruct (print_results_run v w1) as (evs & Hevs & Hrun); rewrite Hrun
        end.
        exists evs. split; auto. cbn [log remote].
        rewrite <- app_assoc. destruct (report v); reflexivity.
      * exists []. split; reflexivity.
Qed.

(** The shape of every run of the loop over the attempts [a .. a+m-1]. *)
Lemma retry_loop_run (m : nat) :
  forall (a : nat) (w : world),
    m = 0%nat \/ Z.of_nat (a + m) = max_retries ->
    exists (n : nat) (evs : list event),
      retry_loop self payload max_retries (map Z.of_nat (seq a m)) w =
        (run_result req w n, mk_world (later n (remote w)) (log w ++ evs)) /\
      (n <= m)%nat /\
      schedule evs = backoff req (Z.of_nat a) n /\
      ((0 < m)%nat ->
         (0 < n)%nat /\
         (forall i, (i < n - 1)%nat -> caught (remote w i req) = true) /\
         (n = m \/ caught (remote w (n - 1) req) = false)).
Proof.
  induction m as [| m IH]; intros a w Hmax.
  - exists 0%nat, []. repeat split; try lia.
    destruct w as [f l]. simpl. unfold ret. now rewrite app_nil_r.
  - destruct Hmax as [Hmax | Hmax]; [discriminate |].
    cbn [seq map retry_loop]. unfold try_except.
    destruct (attempt_body_run w) as (evs0 & Hevs0 & Hrun). rewrite Hrun.
    assert (Hsched0 : schedule (Call req :: evs0) = [Call req]).
    { change (Call req :: evs0) with ([Call req] ++ evs0).
      rewrite schedule_app, (schedule_prints evs0 Hevs0). reflexivity. }
    destruct (attempt_result (remote w 0%nat req)) as [v | e] eqn:Hres.
    + (* the attempt returns *)
      exists 1%nat, (Call req :: evs0). cbn [run_result]. rewrite Hres.
      repeat split; auto; try lia.
      right. unfold caught. simpl. now rewrite Hres.
    + destruct (is_request_exception e) eqn:Hreq.
      * unfold bind, sleep, print, emit. cbn [log remote encodable_message].
        destruct (Z.of_nat a <? max_retries - 1) eqn:Hlast.
        -- (* caught, and another attempt follows *)
           apply Z.ltb_lt in Hlast.
           match goal with
           | |- context [retry_loop _ _ _ _ ?w2] =>
               destruct (IH (S a) w2) as (n & evs & Hloop & Hle & Hsched & Hrest);
                 [right; lia | rewrite Hloop]
           end.
           destruct Hrest as (Hn & Hcaught & Hend); [lia |].
           cbn [log remote] in *.
           exists (S n),
             ((Call req :: evs0) ++
              [Print (MsgAttemptFailed (Z.of_nat a + 1) max_retries e);
               Print (MsgRetrying (2 ^ Z.of_nat a)); Sleep (2 ^ Z.of_nat a)] ++ evs).
           repeat split.
           ++ f_equal.
              ** destruct n as [| k]; [lia |]. reflexivity.
              ** f_equal. repeat rewrite <- app_assoc. reflexivity.
           ++ lia.
           ++ rewrite backoff_S by lia.
              rewrite !schedule_app, Hsched0, Hsched.
              replace (Z.of_nat a + 1) with (Z.of_nat (S a)) by lia. reflexivity.
           ++ lia.
           ++ intros i Hi. destruct i as [| i].
              ** unfold caught. now rewrite Hres.
              ** apply (Hcaught i). lia.
           ++ destruct Hend as [Hend | Hend]; [left; lia | right].
              destruct n as [| k]; [lia |].
              replace (S (S k) - 1)%nat with (S k) by lia.
              replace (S k - 1)%nat with k in Hend by lia. exact Hend.
        -- (* caught at the last attempt: raised again *)
           apply Z.ltb_ge in Hlast.
           exists 1%nat,
             ((Call req :: evs0) ++
              [Print (MsgAttemptFailed (Z.of_nat a + 1) max_retries e);
               Print MsgAllFailed]).
           cbn [run_result]. rewrite Hres. unfold raise. cbn [log remote].
           repeat split; try lia.
           ++ f_equal. f_equal. repeat rewrite <- app_assoc. reflexivity.
           ++ rewrite schedule_app, Hsched0. reflexivity.
      * (* not a RequestException: it passes through the handler *)
        exists 1%nat, (Call req :: evs0). cbn [run_result]. rewrite Hres.
        repeat split; auto; try lia.
        right. unfold caught. simpl. now rewrite Hres.
Qed.

End RetryLoop.

Lemma fails_attempt (o : outcome) :
  fails o = true ->
  exists e, failure_of o = Some e /\ attempt_result o = Raise e /\
            is_request_exception e = true.
Proof.
  destruct o as [t | r]; simpl.
  - intros _. exists (TransportExn t). auto.
  - intros H. rewrite H. exists (HTTPError (status_code r)). auto.
Qed.

Lemma fails_caught (o : outcome) : fails o = true -> caught o = true.
Proof.
  intros H. destruct (fails_attempt o H) as (e & _ & Hres & He).
  unfold caught. now rewrite Hres.
Qed.

Lemma is_2xx_not_error (status : Z) :
  is_2xx status = true -> is_error_status status = false.
Proof. unfold is_2xx, is_error_status. lia. Qed.

Lemma succeeds_attempt (o : outcome) (v : value) :
  succeeds_with o v ->
  attempt_result o = match report v with Ok _ => Ok v | Raise e => Raise e end.
Proof.
  intros (r & -> & H2xx & Hbody). simpl.
  now rewrite (is_2xx_not_error _ H2xx), Hbody.
Qed.

Lemma succeeds_not_caught (o : outcome) (v : value) :
  succeeds_with o v -> caught o = false.
Proof.
  intros H. unfold caught. rewrite (succeeds_attempt o v H).
  pose proof (report_builtin v) as Hb. destruct (report v); auto.
Qed.

Lemma backoff_prefix (r : request) (k : nat) :
  forall (a n : nat),
    (k < n)%nat ->
    backoff r (Z.of_nat a) n =
    flat_map (fun i => [Call r; Sleep (2 ^ Z.of_nat i)]) (seq a k) ++
    backoff r (Z.of_nat (a + k)) (n - k).
Proof.
  induction k as [| k IH]; intros a n Hk.
  - simpl. now rewrite Nat.add_0_r, Nat.sub_0_r.
  - destruct n as [| n]; [lia |].
    rewrite backoff_S by lia. cbn [seq flat_map app].
    replace (Z.of_nat a + 1) with (Z.of_nat (S a)) by lia.
    rewrite (IH (S a) n) by lia.
    replace (S a + k)%nat with (a + S k)%nat by lia. reflexivity.
Qed.

Lemma total_app (l1 l2 : list Z) : total (l1 ++ l2) = total l1 + total l2.
Proof.
  unfold total. induction l1 as [| x l1 IH]; simpl; auto. rewrite IH. lia.
Qed.

Lemma total_pow2_nonneg (l : list nat) :
  0 <= total (map (fun i => 2 ^ Z.of_nat i) l).
Proof.
  unfold total. induction l as [| x l IH]; cbn [map fold_right]; [lia |].
  assert (0 < 2 ^ Z.of_nat x) by (apply Z.pow_pos_nonneg; lia).
  lia.
Qed.

Lemma worst_case_sleep_seq (max_retries : Z) :
  worst_case_sleep max_retries =
  total (map (fun i => 2 ^ Z.of_nat i) (seq 0 (Z.to_nat max_retries - 1))).
Proof.
  unfold worst_case_sleep, py_range. rewrite map_map.
  replace (Z.to_nat (max_retries - 1)) with (Z.to_nat max_retries - 1)%nat by lia.
  reflexivity.
Qed.

Section Submit.

Variable self : AluminatiEnergyTracker.
Variables (model_size_gb : float) (num_gpus : Z) (gpu_type : string).
Variables (duration_hours utilization_pct : float) (use_smart_agent : bool).
Variable notes : option string.
Variable max_retries : Z.

Local Abbreviation payload :=
  (build_payload model_size_gb num_gpus gpu_type duration_hours
     utilization_pct use_smart_agent notes).

Local Abbreviation req := (submit_request self payload).

Local Abbreviation submit :=
  (submit_workload self model_size_gb num_gpus gpu_type duration_hours
     utilization_pct use_smart_agent notes max_retries).

(** Every run of [submit_workload]: [n] calls, the backoff schedule between
    them, and the result of the last one. *)
Lemma submit_workload_run (w : world) :
  exists (n : nat) (evs : list event),
    submit w = (run_result req w n, mk_world (later n (remote w)) (log w ++ evs)) /\
    (n <= Z.to_nat max_retries)%nat /\
    schedule evs = backoff req 0 n /\
    (0 < max_retries ->
       (0 < n)%nat /\
       (forall i, (i < n - 1)%nat -> caught (remote w i req) = true) /\
       (n = Z.to_nat max_retries \/ caught (remote w (n - 1) req) = false)).
Proof.
  unfold submit_workload, py_range.
  destruct (retry_loop_run self payload max_retries (Z.to_nat max_retries) 0 w)
    as (n & evs & Hrun & Hle & Hsched & Hrest).
  { destruct (Z_le_gt_dec max_retries 0); [left | right]; lia. }
  exists n, evs. repeat split; auto; destruct Hrest as (H1 & H2 & H3); auto; lia.
Qed.

(** Attempt [k] is made when the attempts before it were caught. *)
Lemma attempts_reach (w : world) (k n : nat) :
  (k < Z.to_nat max_retries)%nat ->
  (forall i, (i < k)%nat -> caught (remote w i req) = true) ->
  (0 < n)%nat ->
  (n = Z.to_nat max_retries \/ caught (remote w (n - 1) req) = false) ->
  (k < n)%nat.
Proof.
  intros Hk Hpre Hn [Hend | Hend]; [lia |].
  destruct (Nat.lt_ge_cases k n) as [| Hge]; auto.
  rewrite Hpre in Hend by lia. discriminate.
Qed.

(** It is the last one when it is not caught. *)
Lemma attempts_stop (w : world) (k n : nat) :
  caught (remote w k req) = false ->
  (forall i, (i < n - 1)%nat -> caught (remote w i req) = true) ->
  (k < n)%nat ->
  n = S k.
Proof.
  intros Hk Hpre Hlt.
  destruct (Nat.lt_ge_cases k (n - 1)) as [Hlt' | Hge]; [| lia].
  rewrite Hpre in Hk by lia. discriminate.
Qed.

(* ===================================================================== *)
(** ** No attempt at all *)

(** C9. When [max_retries <= 0], [submit_workload] makes no HTTP call,
    raises no error and returns the empty dictionary: the world is left as
    it was, so nothing is sent, slept or printed. *)
Theorem submit_workload_no_attempt (w : world) :
  max_retries <= 0 -> submit w = (Ok (VDict []), w).
Proof.
  intros Hmax. unfold submit_workload, py_range.
  replace (Z.to_nat max_retries) with 0%nat by lia. reflexivity.
Qed.

(* ===================================================================== *)
(** ** Every attempt fails *)

(** C1, as amended. For every request and every [max_retries >= 1], when
    every attempt fails (a transport error or a response with a 4xx or 5xx
    status), the client makes exactly [max_retries] calls and then raises
    the failure of the last attempt. *)
Theorem submit_workload_all_fail (w : world) :
  1 <= max_retries ->
  (forall i, (i < Z.to_nat max_retries)%nat -> fails (remote w i req) = true) ->
  exists e evs,
    submit w =
      (Raise e, mk_world (later (Z.to_nat max_retries) (remote w)) (log w ++ evs)) /\
    calls_of evs = repeat req (Z.to_nat max_retries) /\
    failure_of (remote w (Z.to_nat max_retries - 1) req) = Some e.
Proof.
  intros Hmax Hfail.
  destruct (submit_workload_run w) as (n & evs & Hrun & Hle & Hsched & Hrest).
  destruct Hrest as (Hn & _ & Hend); [lia |].
  assert (Hall : n = Z.to_nat max_retries).
  { destruct Hend as [| Hend]; auto.
    rewrite fails_caught in Hend; [discriminate | apply Hfail; lia]. }
  subst n.
  destruct (fails_attempt (remote w (Z.to_nat max_retries - 1) req)) as (e & He & Hres & _).
  { apply Hfail. lia. }
  exists e, evs. repeat split; auto.
  - rewrite Hrun. f_equal.
    destruct (Z.to_nat max_retries) as [| k] eqn:Hk; [lia |].
    cbn [run_result]. replace (S k - 1)%nat with k in Hres by lia. exact Hres.
  - rewrite <- calls_of_schedule, Hsched. apply calls_of_backoff.
Qed.

(* ===================================================================== *)
(** ** Backoff *)

Lemma flat_map_py_range {B} (f : Z -> list B) (k : Z) :
  flat_map f (py_range k) = flat_map (fun i => f (Z.of_nat i)) (seq 0 (Z.to_nat k)).
Proof.
  unfold py_range. induction (seq 0 (Z.to_nat k)) as [| x l IH]; simpl; auto.
  now rewrite IH.
Qed.

Lemma backoff_head (r : request) (attempt : Z) (n : nat) :
  (0 < n)%nat -> exists rest, backoff r attempt n = Call r :: rest.
Proof.
  destruct n as [| [| n]]; [lia | |]; intros _; eexists; reflexivity.
Qed.

Lemma sleeps_of_backoff_0 (r : request) (n : nat) :
  sleeps_of (backoff r 0 n) = map (fun i => 2 ^ Z.of_nat i) (seq 0 (n - 1)).
Proof. exact (sleeps_of_backoff r n 0%nat). Qed.

Lemma backoff_prefix_0 (r : request) (k n : nat) :
  (k < n)%nat ->
  backoff r 0 n =
  flat_map (fun i => [Call r; Sleep (2 ^ Z.of_nat i)]) (seq 0 k) ++
  backoff r (Z.of_nat k) (n - k).
Proof. exact (backoff_prefix r k 0%nat n). Qed.

Lemma total_sleeps_bound (r : request) (n m : nat) :
  (n <= m)%nat ->
  total (sleeps_of (backoff r 0 n)) <=
  total (map (fun i => 2 ^ Z.of_nat i) (seq 0 (m - 1))).
Proof.
  intros Hle. rewrite sleeps_of_backoff_0.
  replace (m - 1)%nat with ((n - 1) + (m - 1 - (n - 1)))%nat by lia.
  rewrite seq_app, map_app, total_app.
  pose proof (total_pow2_nonneg (seq (0 + (n - 1)) (m - 1 - (n - 1)))). lia.
Qed.

(** C2. After a failed attempt that is not the last, the client sleeps
    exactly [2^attempt] seconds before the next attempt: when the attempts
    before attempt [k] failed, the calls and sleeps begin with call, 1s,
    call, 2s, ... up to the call of attempt [k]. No sleep follows the final
    failed attempt: when all [max_retries] attempts fail, the schedule ends
    with the last call, and the sleeps add up to
    [sum(2^i for i in 0..max_retries-2)], which no run exceeds. *)
Theorem submit_workload_backoff (w : world) :
  exists r n evs,
    submit w = (r, mk_world (later n (remote w)) (log w ++ evs)) /\
    (forall k : Z,
        0 <= k < max_retries ->
        (forall i, (i < Z.to_nat k)%nat -> caught (remote w i req) = true) ->
        exists rest,
          schedule evs =
          flat_map (fun attempt => [Call req; Sleep (2 ^ attempt)]) (py_range k)
            ++ Call req :: rest) /\
    ((forall i, (i < Z.to_nat max_retries)%nat -> caught (remote w i req) = true) ->
       total (sleeps_of evs) = worst_case_sleep max_retries /\
       (1 <= max_retries ->
          schedule evs =
          flat_map (fun attempt => [Call req; Sleep (2 ^ attempt)])
            (py_range (max_retries - 1)) ++ [Call req])) /\
    total (sleeps_of evs) <= worst_case_sleep max_retries.
Proof.
  destruct (submit_workload_run w) as (n & evs & Hrun & Hle & Hsched & Hrest).
  exists (run_result req w n), n, evs. split; [exact Hrun |].
  assert (Hsleeps : sleeps_of evs = sleeps_of (backoff req 0 n)).
  { now rewrite <- sleeps_of_schedule, Hsched. }
  split; [| split].
  - (* the attempts before [k] failed *)
    intros k Hk Hpre.
    destruct Hrest as (Hn & _ & Hend); [lia |].
    assert (Hreach : (Z.to_nat k < n)%nat).
    { apply (attempts_reach w); auto. lia. }
    rewrite Hsched, flat_map_py_range.
    rewrite (backoff_prefix_0 req (Z.to_nat k) n Hreach).
    destruct (backoff_head req (Z.of_nat (Z.to_nat k)) (n - Z.to_nat k))
      as (rest & Hhead); [lia |].
    exists rest. now rewrite Hhead.
  - (* every attempt failed *)
    intros Hall.
    destruct (Z_le_gt_dec max_retries 0) as [Hzero | Hpos].
    + split; [| lia].
      assert (n = 0%nat) by lia. subst n.
      rewrite Hsleeps, worst_case_sleep_seq.
      replace (Z.to_nat max_retries - 1)%nat with 0%nat by lia. reflexivity.
    + destruct Hrest as (Hn & _ & Hend); [lia |].
      assert (Hn' : n = Z.to_nat max_retries).
      { destruct Hend as [| Hend]; auto.
        rewrite Hall in Hend by lia. discriminate. }
      split.
      * rewrite Hsleeps, worst_case_sleep_seq, <- Hn'.
        now rewrite sleeps_of_backoff_0.
      * intros _. rewrite Hsched, flat_map_py_range.
        replace (Z.to_nat (max_retries - 1)) with (n - 1)%nat by lia.
        rewrite (backoff_prefix_0 req (n - 1) n) by lia.
        replace (n - (n - 1))%nat with 1%nat by lia. reflexivity.
  - (* any run *)
    rewrite Hsleeps, worst_case_sleep_seq. now apply total_sleeps_bound.
Qed.

(* ===================================================================== *)
(** ** An attempt that gets a response *)

Lemma attempt_result_ok (o : outcome) (v : value) :
  attempt_result o = Ok v ->
  exists resp,
    o = Response resp /\ is_error_status (status_code resp) = false /\
    resp_body resp = Some v /\ well_formed_result v = true.
Proof.
  destruct o as [t | resp]; simpl; [discriminate |].
  destruct (is_error_status (status_code resp)) eqn:Hstatus; [discriminate |].
  destruct (resp_body resp) as [v' |] eqn:Hbody; [| discriminate].
  destruct (report v') as [[] | e] eqn:Hrep; [| discriminate].
  intros [= <-]. exists resp. apply report_ok_iff in Hrep.
  apply andb_prop in Hrep as [Hwf _]. auto.
Qed.

Ltac raises :=
  solve [eexists; split; [reflexivity | intros; (reflexivity || discriminate || congruence)]].

Ltac figure_step d key :=
  destruct (dict_lookup d key) as [?v |]; cbn; [| intros _; raises];
  match goal with
  | |- context [format_2f ?v] =>
      destruct (format_2f_cases v) as [[-> ->] | [-> [? ->]]]; cbn;
      [| intros _; raises]
  end.

Lemma report_lacks_raise (v : value) :
  lacks_required v = true ->
  exists e, report v = Raise e /\
            (figures_are_numbers v = true -> printable_id v = true ->
             is_lookup_error e = true).
Proof.
  unfold report, print_results, lacks_required, figures_are_numbers, printable_id.
  unfold bind, lift, print, emit, ret, raise, has_key, dict_has, number_or_absent,
    printable_opt.
  destruct v as [| | | | | | d]; cbn; try (intros _; raises).
  destruct (dict_lookup d "id") as [id |]; cbn; [| intros _; raises].
  destruct (printable_value id); cbn; [| intros _; raises].
  destruct (dict_lookup d "estimates") as [[| | | | | | est] |]; cbn;
    try (intros _; raises).
  figure_step est "kwh".
  figure_step est "carbon_kg".
  figure_step est "cost_usd".
  discriminate.
Qed.

(** A body short of a required field stops the report with a builtin
    exception: the [KeyError] of the missing key, unless a value that the
    report meets before it has the wrong type or cannot be printed. *)
Lemma report_lacks (v : value) :
  lacks_required v = true ->
  exists e,
    report v = Raise e /\ is_request_exception e = false /\
    (figures_are_numbers v = true -> printable_id v = true ->
     is_lookup_error e = true).
Proof.
  intros Hlacks.
  destruct (report_lacks_raise v Hlacks) as (e & He & Hlookup).
  exists e. repeat split; auto.
  pose proof (report_builtin v) as Hb. now rewrite He in Hb.
Qed.

(** C3, as amended. Every attempt that gets a 2xx response with a parsable
    JSON body that is well formed (an [id], the three estimates as numbers,
    insights empty or with a sequence of optimizations) and whose printed
    strings (the [id], the [calculation_method], the first three
    optimizations) hold no lone surrogate returns that body as it is and is
    the last attempt: attempt [k] makes the run end with [k+1] calls.
    Against an endpoint that always succeeds this is attempt 0: one call,
    and the result is the stub's payload. *)
Theorem submit_workload_success (w : world) (k : nat) (v : value) :
  Z.of_nat k < max_retries ->
  (forall i, (i < k)%nat -> caught (remote w i req) = true) ->
  succeeds_with (remote w k req) v ->
  well_formed_result v = true ->
  printable_result v = true ->
  exists evs,
    submit w = (Ok v, mk_world (later (S k) (remote w)) (log w ++ evs)) /\
    calls_of evs = repeat req (S k).
Proof.
  intros Hk Hpre Hsucc Hwf Hprint.
  destruct (submit_workload_run w) as (n & evs & Hrun & Hle & Hsched & Hrest).
  destruct Hrest as (Hn & Hcaught & Hend); [lia |].
  assert (Hreach : (k < n)%nat) by (apply (attempts_reach w); auto; lia).
  assert (Hstop : n = S k).
  { apply (attempts_stop w); auto. now apply (succeeds_not_caught _ v). }
  subst n. exists evs. split.
  - rewrite Hrun. cbn [run_result]. rewrite (succeeds_attempt _ v Hsucc).
    assert (Hrep : report v = Ok tt).
    { apply report_ok_iff. now rewrite Hwf, Hprint. }
    now rewrite Hrep.
  - rewrite <- calls_of_schedule, Hsched. apply calls_of_backoff.
Qed.

(** C10, as amended. When an attempt gets a 2xx response whose parsed body
    lacks [id], lacks [estimates], or lacks [kwh], [carbon_kg] or [cost_usd]
    under [estimates], the operation raises before it returns, and what it
    raises is not a [RequestException]: it is not retried, attempt [k] is
    the last call, and no result is returned. The exception is a lookup
    error when the body is an object whose [id], if it is a string, holds
    no lone surrogate, and whose estimates, if any, is an object with
    numbers for the figures it has. *)
Theorem submit_workload_missing_field (w : world) (k : nat) (v : value) :
  Z.of_nat k < max_retries ->
  (forall i, (i < k)%nat -> caught (remote w i req) = true) ->
  succeeds_with (remote w k req) v ->
  lacks_required v = true ->
  exists e evs,
    submit w = (Raise e, mk_world (later (S k) (remote w)) (log w ++ evs)) /\
    is_request_exception e = false /\
    calls_of evs = repeat req (S k) /\
    (figures_are_numbers v = true -> printable_id v = true ->
     is_lookup_error e = true).
Proof.
  intros Hk Hpre Hsucc Hlacks.
  destruct (report_lacks v Hlacks) as (e & Hrep & Hreq & Hlookup).
  destruct (submit_workload_run w) as (n & evs & Hrun & Hle & Hsched & Hrest).
  destruct Hrest as (Hn & Hcaught & Hend); [lia |].
  assert (Hreach : (k < n)%nat) by (apply (attempts_reach w); auto; lia).
  assert (Hstop : n = S k).
  { apply (attempts_stop w); auto. now apply (succeeds_not_caught _ v). }
  subst n. exists e, evs. repeat split; auto.
  - rewrite Hrun. cbn [run_result]. rewrite (succeeds_attempt _ v Hsucc).
    now rewrite Hrep.
  - rewrite <- calls_of_schedule, Hsched. apply calls_of_backoff.
Qed.

(** C4, as amended. For every request and every [max_retries >= 1],
    [submit_workload] either raises, or returns the parsed body of the
    response to its last call, a body with an [id] and the three estimates
    as numbers: never a default. *)
Theorem submit_workload_result_or_failure (w : world) :
  1 <= max_retries ->
  exists r n evs,
    submit w = (r, mk_world (later (S n) (remote w)) (log w ++ evs)) /\
    ((exists e, r = Raise e) \/
     (exists v resp,
        r = Ok v /\ remote w n req = Response resp /\
        is_error_status (status_code resp) = false /\
        resp_body resp = Some v /\ well_formed_result v = true)).
Proof.
  intros Hmax.
  destruct (submit_workload_run w) as (n & evs & Hrun & Hle & Hsched & Hrest).
  destruct Hrest as (Hn & _ & _); [lia |].
  destruct n as [| k]; [lia |].
  exists (run_result req w (S k)), k, evs. split; [exact Hrun |].
  cbn [run_result].
  destruct (attempt_result (remote w k req)) as [v | e] eqn:Hres.
  - right. destruct (attempt_result_ok _ _ Hres) as (resp & H1 & H2 & H3 & H4).
    exists v, resp. auto.
  - left. now exists e.
Qed.

(* ===================================================================== *)
(** ** What is sent *)

(** C5. The JSON body of [submit_workload] has the key [notes] if and only
    if [notes] is a non-empty string: it then maps [notes] to that string,
    and it has no such key when [notes] is [None] or empty. *)
Theorem build_payload_notes :
  req_json req = Some (VDict payload) /\
  (dict_has payload "notes" = true <-> exists s, notes = Some s /\ s <> "") /\
  (forall s, notes = Some s -> s <> "" ->
             dict_lookup payload "notes" = Some (VStr s)) /\
  (notes = None \/ notes = Some "" -> dict_lookup payload "notes" = None).
Proof.
  split; [reflexivity |].
  unfold build_payload, dict_has.
  destruct notes as [s |]; simpl.
  - destruct (String.eqb_spec s "") as [-> | Hs]; simpl.
    + repeat split; try discriminate; auto.
      * intros (s & [= <-] & Hs). now contradiction Hs.
      * intros s [= <-] Hs. now contradiction Hs.
    + repeat split; auto.
      * intros _. now exists s.
      * now intros s' [= <-] _.
      * intros [H | [= H]]; [discriminate | now contradiction Hs].
  - repeat split; try discriminate; auto.
    intros (s & H & _). discriminate.
Qed.

(** C7. Every attempt of [submit_workload] is a POST to
    [{base_url}/api/workloads] with a timeout of 30 seconds, and its body
    has exactly the fields [model_size_gb], [num_gpus], [gpu_type],
    [duration_hours], [utilization_pct], [use_smart_agent], and [notes]
    after them only when a non-empty one is given. *)
Theorem submit_workload_requests (w : world) :
  exists r n evs,
    submit w = (r, mk_world (later n (remote w)) (log w ++ evs)) /\
    calls_of evs =
      repeat {| req_method := POST;
                req_url := (api_base_url self ++ "/api/workloads")%string;
                req_json := Some (VDict payload);
                req_timeout := Some 30 |} n /\
    (1 <= max_retries -> (1 <= n)%nat) /\
    dict_keys payload =
      match notes with
      | Some s => if String.eqb s "" then required_fields
                  else required_fields ++ ["notes"]
      | None => required_fields
      end.
Proof.
  destruct (submit_workload_run w) as (n & evs & Hrun & Hle & Hsched & Hrest).
  exists (run_result req w n), n, evs. repeat split; auto.
  - rewrite <- calls_of_schedule, Hsched. apply calls_of_backoff.
  - intros Hmax. destruct Hrest as (Hn & _); lia.
  - unfold build_payload. destruct notes as [s |]; simpl; auto.
    destruct (String.eqb s ""); reflexivity.
Qed.

End Submit.

(* ===================================================================== *)
(** ** The base URL *)

Lemma rstrip_slash_snoc (u : string) :
  rstrip_slash (u ++ "/") = rstrip_slash u.
Proof.
  induction u as [| c u IH]; simpl; auto. now rewrite IH.
Qed.

Lemma rstrip_slash_no_trailing (u : string) :
  ends_with_slash (rstrip_slash u) = false.
Proof.
  induction u as [| c u IH]; simpl; auto.
  destruct (rstrip_slash u) as [| c' r] eqn:Hr.
  - destruct (Ascii.eqb c "/") eqn:Hc; simpl; auto.
  - exact IH.
Qed.

Lemma rstrip_slash_fixed (s : string) :
  ends_with_slash s = false -> rstrip_slash s = s.
Proof.
  induction s as [| c s IH]; simpl; auto.
  destruct s as [| c' s'].
  - simpl. intros ->. reflexivity.
  - intros H. rewrite (IH H). reflexivity.
Qed.

Lemma rstrip_slash_split (u : string) :
  exists n, u = (rstrip_slash u ++ slashes n)%string.
Proof.
  induction u as [| c u (n & IH)]; simpl.
  - now exists 0%nat.
  - destruct (rstrip_slash u) as [| c' r] eqn:Hr.
    + destruct (Ascii.eqb_spec c "/") as [-> | Hc].
      * exists (S n). simpl in *. now rewrite <- IH.
      * exists n. simpl in *. now rewrite <- IH.
    + exists n. simpl in *. now rewrite <- IH.
Qed.

(** C8. The constructor strips the trailing slashes of the base URL: what
    it keeps has none and is the given URL without them. So a client made
    with [u ++ "/"] is the client made with [u] and issues the same request
    URLs, making a client from a client's base URL changes nothing, and the
    default base URL is [https://aluminatiai.com]. *)
Theorem init_strips_trailing_slash (u : string) :
  ends_with_slash (api_base_url (__init__ u)) = false /\
  (exists n, u = (api_base_url (__init__ u) ++ slashes n)%string) /\
  __init__ (u ++ "/") = __init__ u /\
  (forall payload, req_url (submit_request (__init__ (u ++ "/")) payload) =
                   req_url (submit_request (__init__ u) payload)) /\
  (forall workload_id,
      req_url (get_request (__init__ (u ++ "/")) workload_id) =
      req_url (get_request (__init__ u) workload_id)) /\
  (forall workload_id status,
      req_url (patch_request (__init__ (u ++ "/")) workload_id status) =
      req_url (patch_request (__init__ u) workload_id status)) /\
  __init__ (api_base_url (__init__ u)) = __init__ u /\
  default_api_base_url = "https://aluminatiai.com" /\
  api_base_url (__init__ default_api_base_url) = "https://aluminatiai.com".
Proof.
  assert (Hsame : __init__ (u ++ "/") = __init__ u).
  { unfold __init__. now rewrite rstrip_slash_snoc. }
  repeat split; try (intros; now rewrite Hsame).
  - apply rstrip_slash_no_trailing.
  - apply rstrip_slash_split.
  - unfold __init__. simpl. f_equal. apply rstrip_slash_fixed, rstrip_slash_no_trailing.
Qed.

(* ===================================================================== *)
(** ** The methods with one call *)

Lemma single_call_run (r : request) (w : world) :
  (response <- session_request r;;
   raise_for_status response;;;
   response_json response) w =
  (single_call_result (remote w 0%nat r),
   mk_world (later 1 (remote w)) (log w ++ [Call r])).
Proof.
  unfold bind, session_request, single_call_result, raise_for_status, response_json.
  destruct (remote w 0%nat r) as [t | resp]; [reflexivity |].
  destruct (is_error_status (status_code resp)); [reflexivity |].
  destruct (resp_body resp); reflexivity.
Qed.

(** C6, as amended. For every [workload_id] and [status], [get_workload] and
    [update_status] each make exactly one call, whatever comes of it, and
    have no handler: a transport error, or the [HTTPError] of a response
    with a 4xx or 5xx status, is raised to the caller at once. A response
    with any other status is no error to [raise_for_status]: its body is
    parsed and returned. *)
Theorem single_call_methods (self : AluminatiEnergyTracker)
    (workload_id status : string) (w : world) :
  let get := get_request self workload_id in
  let patch := patch_request self workload_id status in
  get_workload self workload_id w =
    (single_call_result (remote w 0%nat get),
     mk_world (later 1 (remote w)) (log w ++ [Call get])) /\
  update_status self workload_id status w =
    (single_call_result (remote w 0%nat patch),
     mk_world (later 1 (remote w)) (log w ++ [Call patch])) /\
  (forall o e, failure_of o = Some e -> single_call_result o = Raise e) /\
  (forall code body,
      is_error_status code = false ->
      single_call_result (respond code (Some body)) = Ok body).
Proof.
  intros get patch. repeat split.
  - apply single_call_run.
  - apply single_call_run.
  - intros [t | resp] e; simpl.
    + now intros [= <-].
    + destruct (is_error_status (status_code resp)); [now intros [= <-] | discriminate].
  - intros st body Hst. simpl. now rewrite Hst.
Qed.

(* ===================================================================== *)
(** ** The usage example against stubs of the service *)

Example example_request_sent :
  example_request =
  {| req_method := POST;
     req_url := "https://aluminatiai.com/api/workloads";
     req_json :=
       Some (VDict [ ("model_size_gb", VFloat 70); ("num_gpus", VInt 8);
                     ("gpu_type", VStr "H100"); ("duration_hours", VFloat 72);
                     ("utilization_pct", VFloat 85);
                     ("use_smart_agent", VBool true) ]);
     req_timeout := Some 30 |}.
Proof. reflexivity. Qed.

Example two_timeouts_then_success :
  let run := example_submit 3 (after_timeouts 2 (respond 200 (Some stub_result))) in
  fst run = Ok stub_result /\
  schedule (log (snd run)) =
    [ Call example_request; Sleep 1; Call example_request; Sleep 2;
      Call example_request ].
Proof. split; reflexivity. Qed.

Example first_three_optimizations :
  let result :=
    VDict [ ("id", VStr "abc123");
            ("estimates",
             VDict [("kwh", VInt 1200); ("carbon_kg", VInt 600); ("cost_usd", VInt 150)]);
            ("agent_insights",
             VDict [("optimizations",
                     VList [VStr "a"; VStr "b"; VStr "c"; VStr "d"])]) ] in
  let run := example_submit 3 (always (respond 200 (Some result))) in
  fst run = Ok result /\
  skipn 7 (log (snd run)) =
    [ Print (MsgMethod (VStr "N/A")); Print MsgOptimizations;
      Print (MsgOptimization 1 (VStr "a")); Print (MsgOptimization 2 (VStr "b"));
      Print (MsgOptimization 3 (VStr "c")) ].
Proof. split; reflexivity. Qed.

Example characters_are_code_points :
  chars accented_word =
    [ String "195" (String "169" EmptyString); "t";
      String "195" (String "169" EmptyString); "s" ] /\
  chars lone_surrogate = [lone_surrogate] /\
  has_surrogate accented_word = false /\
  has_surrogate lone_surrogate = true.
Proof. repeat split; reflexivity. Qed.

Example body_that_gives_no_value :
  let digits := always (Response (mk_response 200 None DigitLimit)) in
  let text := always (Response (mk_response 200 None NotJSON)) in
  fst (example_submit 3 digits) = Raise ValueError /\
  calls_of (log (snd (example_submit 3 digits))) = [example_request] /\
  fst (example_submit 3 text) = Raise JSONDecodeError /\
  calls_of (log (snd (example_submit 3 text))) = repeat example_request 3.
Proof. repeat split; reflexivity. Qed.

Example notes_given_empty_absent :
  dict_lookup (build_payload 13 2 "A100" 24 60 false (Some "chat API")) "notes"
    = Some (VStr "chat API") /\
  dict_lookup (build_payload 13 2 "A100" 24 60 false (Some "")) "notes" = None /\
  dict_lookup (build_payload 13 2 "A100" 24 60 false None) "notes" = None.
Proof. repeat split; reflexivity. Qed.

Lemma submit_workload_no_attempt_witness :
  example_submit 0 unavailable = (Ok (VDict []), unavailable).
Proof.
  apply (submit_workload_no_attempt example_tracker 70 8 "H100" 72 85 true None 0).
  lia.
Defined.

Lemma submit_workload_all_fail_witness :
  exists e evs,
    example_submit 3 unavailable =
      (Raise e, mk_world (later 3 (remote unavailable)) (log unavailable ++ evs)) /\
    calls_of evs = repeat example_request 3 /\
    failure_of (respond 503 None) = Some e.
Proof.
  apply (submit_workload_all_fail example_tracker 70 8 "H100" 72 85 true None 3
           unavailable).
  - lia.
  - intros i _. reflexivity.
Defined.

(** Against C1 as stated: with [max_retries = 0] and a service that always
    fails, no call is made and the default is returned, no failure raised;
    and a response with status 300, which is not 2xx, is not a failure to
    the client, which returns its body after one call. *)
Lemma submit_workload_failure_not_raised :
  fails (respond 503 None) = true /\
  example_submit 0 unavailable = (Ok (VDict []), unavailable) /\
  is_2xx 300 = false /\
  fst (example_submit 3 multiple_choices) = Ok stub_result /\
  calls_of (log (snd (example_submit 3 multiple_choices))) = [example_request].
Proof. repeat split; reflexivity. Qed.

Lemma submit_workload_backoff_witness :
  exists r n evs,
    example_submit 3 unavailable =
      (r, mk_world (later n (remote unavailable)) (log unavailable ++ evs)) /\
    total (sleeps_of evs) = 3 /\
    schedule evs =
      [ Call example_request; Sleep 1; Call example_request; Sleep 2;
        Call example_request ].
Proof.
  destruct (submit_workload_backoff example_tracker 70 8 "H100" 72 85 true None 3
              unavailable) as (r & n & evs & Hrun & _ & Hall & _).
  destruct Hall as (Htotal & Hsched); [intros i _; reflexivity |].
  exists r, n, evs. repeat split.
  - exact Hrun.
  - exact Htotal.
  - apply Hsched. lia.
Defined.

Lemma submit_workload_success_witness :
  exists evs,
    example_submit 3 serving =
      (Ok stub_result, mk_world (later 1 (remote serving)) (log serving ++ evs)) /\
    calls_of evs = [example_request].
Proof.
  apply (submit_workload_success example_tracker 70 8 "H100" 72 85 true None 3
           serving 0 stub_result).
  - lia.
  - intros i Hi. lia.
  - exists (mk_response 200 (Some stub_result) NotJSON). repeat split; reflexivity.
  - reflexivity.
  - reflexivity.
Defined.

(** Against C3 as stated: a 200 response whose body parses, to an object
    without [id], is not returned: the report raises [KeyError]. Nor is a
    body of the expected shape whose [id] is a lone surrogate: the line of
    the id cannot be encoded and [print] raises. *)
Lemma submit_workload_body_not_returned :
  is_2xx 200 = true /\
  fst (example_submit 3 (always (respond 200 (Some body_without_id)))) =
    Raise (KeyError "id") /\
  calls_of (log (snd (example_submit 3 (always (respond 200 (Some body_without_id))))))
    = [example_request] /\
  well_formed_result body_with_surrogate_id = true /\
  fst (example_submit 3 (always (respond 200 (Some body_with_surrogate_id)))) =
    Raise UnicodeEncodeError.
Proof. repeat split; reflexivity. Qed.

Lemma submit_workload_result_or_failure_witness :
  exists r n evs,
    example_submit 3 serving =
      (r, mk_world (later (S n) (remote serving)) (log serving ++ evs)) /\
    ((exists e, r = Raise e) \/
     (exists v resp,
        r = Ok v /\ remote serving n example_request = Response resp /\
        is_error_status (status_code resp) = false /\
        resp_body resp = Some v /\ well_formed_result v = true)).
Proof.
  apply (submit_workload_result_or_failure example_tracker 70 8 "H100" 72 85 true
           None 3 serving).
  lia.
Defined.

(** Against C4 as stated: with [max_retries = 0] and the service down, the
    caller gets the empty default, which is no workload result, and no
    failure. *)
Lemma submit_workload_default_returned :
  example_submit 0 down = (Ok (VDict []), down) /\
  well_formed_result (VDict []) = false /\
  has_key (VDict []) "id" = false.
Proof. repeat split; reflexivity. Qed.

(** Against C6 as stated: a response with status 300, which is not 2xx,
    does not make [get_workload] or [update_status] fail: both return its
    body. *)
Lemma single_call_non_2xx_returned :
  is_2xx 300 = false /\
  fst (get_workload example_tracker "abc123" multiple_choices) = Ok stub_result /\
  fst (update_status example_tracker "abc123" "running" multiple_choices)
    = Ok stub_result.
Proof. repeat split; reflexivity. Qed.

Lemma submit_workload_missing_field_witness :
  exists e evs,
    example_submit 3 (always (respond 200 (Some body_without_id))) =
      (Raise e,
       mk_world (later 1 (remote (always (respond 200 (Some body_without_id)))))
         (log (always (respond 200 (Some body_without_id))) ++ evs)) /\
    is_request_exception e = false /\
    calls_of evs = [example_request] /\
    is_lookup_error e = true.
Proof.
  destruct (submit_workload_missing_field example_tracker 70 8 "H100" 72 85 true
              None 3 (always (respond 200 (Some body_without_id))) 0 body_without_id)
    as (e & evs & Hrun & Hreq & Hcalls & Hlookup).
  - lia.
  - intros i Hi. lia.
  - exists (mk_response 200 (Some body_without_id) NotJSON). repeat split; reflexivity.
  - reflexivity.
  - exists e, evs. repeat split; auto.
Defined.

(** Against C10 as stated: a 200 response whose estimates lack [carbon_kg]
    and [cost_usd] and give [kwh] as a string stops at the format of [kwh]
    with a [ValueError], which is not a lookup error; and a body without
    [estimates] whose [id] is a lone surrogate stops at the line of the id
    with a [UnicodeEncodeError], which is none either. *)
Lemma submit_workload_missing_field_value_error :
  is_2xx 200 = true /\
  lacks_required body_with_text_figure = true /\
  fst (example_submit 3 (always (respond 200 (Some body_with_text_figure)))) =
    Raise ValueError /\
  is_lookup_error ValueError = false /\
  lacks_required body_with_surrogate_id_only = true /\
  figures_are_numbers body_with_surrogate_id_only = true /\
  fst (example_submit 3 (always (respond 200 (Some body_with_surrogate_id_only)))) =
    Raise UnicodeEncodeError /\
  is_lookup_error UnicodeEncodeError = false.
Proof. repeat split; reflexivity. Qed.

(* ===================================================================== *)
(** ** The whole log of the retry loop *)

Lemma only_prints_map (evs : list event) :
  only_prints evs = true -> map Print (prints_of evs) = evs.
Proof.
  induction evs as [| [r | s | m] evs IH]; simpl; try discriminate; auto.
  intros H. now rewrite (IH H).
Qed.

(** The report, with its lines. *)
Lemma print_results_exact (result : value) (w : world) :
  print_results result w =
  (report result, mk_world (remote w) (log w ++ map Print (report_lines result))).
Proof.
  destruct (console_print_results result) as (r & evs & _ & Hevs & Hrun).
  unfold report, report_lines. rewrite (Hrun blank), (Hrun w). cbn [fst snd log blank].
  cbn [app]. now rewrite (only_prints_map evs Hevs).
Qed.

Lemma print_optimizations_exact (items : list value) :
  forall (i : Z) (w : world),
    forallb printable_value items = true ->
    print_optimizations i items w =
    (Ok tt, mk_world (remote w) (log w ++ map Print (numbered i items))).
Proof.
  induction items as [| opt rest IH]; intros i [f l] Hitems.
  - cbn. unfold ret. now rewrite app_nil_r.
  - cbn [forallb] in Hitems. apply andb_prop in Hitems as [Hopt Hrest].
    cbn [print_optimizations numbered map]. unfold bind, print, emit.
    cbn [encodable_message]. rewrite Hopt, (IH _ _ Hrest).
    cbn [remote log]. now rewrite <- app_assoc.
Qed.

(** An attempt that is caught raised before any report: it logs its call
    and nothing else. *)
Lemma caught_raises (o : outcome) :
  caught o = true ->
  attempt_result o = Raise (request_exception_of o) /\
  attempt_lines o = [] /\
  is_request_exception (request_exception_of o) = true.
Proof.
  unfold caught, attempt_result, attempt_lines, request_exception_of.
  destruct o as [t | r]; [auto |].
  destruct (is_error_status (status_code r)); [auto |].
  destruct (resp_body r) as [v |].
  - pose proof (report_builtin v) as Hb.
    destruct (report v) as [[] | e]; [discriminate |].
    simpl in Hb. rewrite Hb. discriminate.
  - destruct (resp_failure r); cbn; auto; discriminate.
Qed.

Lemma first_exceptions_S (f : nat -> request -> outcome) (r : request) (k : nat) :
  first_exceptions f r (S k) =
  request_exception_of (f 0%nat r) :: first_exceptions (later 1 f) r k.
Proof.
  unfold first_exceptions. cbn [seq map]. f_equal.
  rewrite <- seq_shift, map_map. reflexivity.
Qed.

Section RetryLog.

Variable self : AluminatiEnergyTracker.
Variable payload : dict.
Variable max_retries : Z.

Local Abbreviation req := (submit_request self payload).

Lemma attempt_body_exact (w : world) :
  attempt_body self payload w =
  (attempt_result (remote w 0%nat req),
   mk_world (later 1 (remote w))
     (log w ++ Call req :: map Print (attempt_lines (remote w 0%nat req)))).
Proof.
  unfold attempt_body, bind, session_request, attempt_result, attempt_lines.
  destruct (remote w 0%nat req) as [t | r]; [reflexivity |].
  unfold raise_for_status, response_json.
  destruct (is_error_status (status_code r)); [reflexivity |].
  unfold ret, raise. destruct (resp_body r) as [v |]; [| reflexivity].
  rewrite print_results_exact. cbn [log remote].
  rewrite <- app_assoc. destruct (report v); reflexivity.
Qed.

(** The attempt that decides the run: it is not caught, or it is caught
    with no attempt left. *)
Lemma retry_loop_final (a : Z) (rest : list Z) (w : world) :
  (caught (remote w 0%nat req) = true -> max_retries - 1 <= a) ->
  retry_loop self payload max_retries (a :: rest) w =
  (attempt_result (remote w 0%nat req),
   mk_world (later 1 (remote w))
     (log w ++ final_entries req max_retries a (remote w 0%nat req))).
Proof.
  intros Hlast. cbn [retry_loop]. unfold try_except. rewrite attempt_body_exact.
  unfold final_entries.
  destruct (caught (remote w 0%nat req)) eqn:Hc.
  - destruct (caught_raises _ Hc) as (Hres & Hlines & Hreq).
    rewrite Hres, Hlines, Hreq. unfold bind, print, emit.
    cbn [log remote encodable_message].
    specialize (Hlast eq_refl). apply Z.ltb_ge in Hlast. rewrite Hlast.
    unfold raise. cbn [log remote map]. f_equal. f_equal.
    repeat rewrite <- app_assoc. reflexivity.
  - unfold caught in Hc.
    destruct (attempt_result (remote w 0%nat req)) as [v | e]; [reflexivity |].
    now rewrite Hc.
Qed.

(** [k] caught attempts, each followed by another, and then the attempt
    that decides the run. *)
Lemma retry_loop_decided (k : nat) :
  forall (a : nat) (rest : list Z) (w : world),
    (forall i, (i < k)%nat -> caught (remote w i req) = true) ->
    Z.of_nat (a + k) <= max_retries - 1 ->
    (caught (remote w k req) = true -> max_retries - 1 <= Z.of_nat (a + k)) ->
    retry_loop self payload max_retries (map Z.of_nat (seq a (S k)) ++ rest) w =
    (attempt_result (remote w k req),
     mk_world (later (S k) (remote w))
       (log w ++
        failure_entries req max_retries (Z.of_nat a)
          (first_exceptions (remote w) req k) ++
        final_entries req max_retries (Z.of_nat (a + k)) (remote w k req))).
Proof.
  induction k as [| k IH]; intros a rest w Hpre Hmore Hlast.
  - cbn [seq map app first_exceptions failure_entries].
    rewrite Nat.add_0_r in *. now apply retry_loop_final.
  - change (seq a (S (S k))) with (a :: seq (S a) (S k)).
    cbn [map app retry_loop]. unfold try_except.
    rewrite attempt_body_exact.
    destruct (caught_raises (remote w 0%nat req)) as (Hres & Hlines & Hreq).
    { apply Hpre. lia. }
    rewrite Hres, Hlines, Hreq. unfold bind, sleep, print, emit.
    cbn [log remote map encodable_message].
    replace (Z.of_nat a <? max_retries - 1) with true by (symmetry; apply Z.ltb_lt; lia).
    rewrite (IH (S a) rest).
    + cbn [log remote]. rewrite first_exceptions_S. cbn [failure_entries].
      replace (Z.of_nat a + 1) with (Z.of_nat (S a)) by lia.
      replace (S a + k)%nat with (a + S k)%nat by lia.
      f_equal. f_equal. repeat rewrite <- app_assoc. reflexivity.
    + intros i Hi. cbn [remote]. apply (Hpre (S i)). lia.
    + lia.
    + intros Hc. cbn [remote] in Hc. specialize (Hlast Hc). lia.
Qed.

End RetryLog.

Lemma sleeps_of_app (l1 l2 : list event) :
  sleeps_of (l1 ++ l2) = sleeps_of l1 ++ sleeps_of l2.
Proof.
  induction l1 as [| [r | s | m] l1 IH]; simpl; auto. now rewrite IH.
Qed.

Lemma sleeps_of_prints (ms : list message) : sleeps_of (map Print ms) = [].
Proof. induction ms; simpl; auto. Qed.

Lemma sleeps_of_final_entries (r : request) (m a : Z) (o : outcome) :
  sleeps_of (final_entries r m a o) = [].
Proof.
  unfold final_entries. destruct (caught o); cbn; auto. apply sleeps_of_prints.
Qed.

Lemma total_sleeps_failure_entries (r : request) (m : Z) (es : list exn) :
  forall a, 0 <= a ->
    total (sleeps_of (failure_entries r m a es)) =
    2 ^ (a + Z.of_nat (List.length es)) - 2 ^ a.
Proof.
  induction es as [| e es IH]; intros a Ha.
  - cbn. rewrite Z.add_0_r. lia.
  - cbn [failure_entries app sleeps_of List.length]. unfold total in *.
    cbn [fold_right]. rewrite IH by lia.
    replace (a + 1 + Z.of_nat (List.length es)) with (a + Z.of_nat (S (List.length es))) by lia.
    rewrite (Z.pow_add_r 2 a 1) by lia. lia.
Qed.

Lemma first_exceptions_length (f : nat -> request -> outcome) (r : request) (k : nat) :
  List.length (first_exceptions f r k) = k.
Proof. unfold first_exceptions. now rewrite length_map, length_seq. Qed.

Lemma last_backoff_call (r : request) (n : nat) :
  forall attempt secs, last (backoff r attempt n) (Call r) <> Sleep secs.
Proof.
  induction n as [| n IH]; intros attempt secs; [discriminate |].
  destruct n as [| n']; [discriminate |].
  rewrite backoff_S by lia.
  specialize (IH (attempt + 1) secs).
  destruct (backoff_head r (attempt + 1) (S n')) as (rest & Hhead); [lia |].
  rewrite Hhead in *. exact IH.
Qed.

Section SubmitLog.

Variable self : AluminatiEnergyTracker.
Variables (model_size_gb : float) (num_gpus : Z) (gpu_type : string).
Variables (duration_hours utilization_pct : float) (use_smart_agent : bool).
Variable notes : option string.
Variable max_retries : Z.

Local Abbreviation payload :=
  (build_payload model_size_gb num_gpus gpu_type duration_hours
     utilization_pct use_smart_agent notes).

Local Abbreviation req := (submit_request self payload).

Local Abbreviation submit :=
  (submit_workload self model_size_gb num_gpus gpu_type duration_hours
     utilization_pct use_smart_agent notes max_retries).

(** The attempts of a run split at attempt [k]. *)
Lemma py_range_split (k : nat) :
  Z.of_nat k < max_retries ->
  py_range max_retries =
  map Z.of_nat (seq 0 (S k)) ++
  map Z.of_nat (seq (S k) (Z.to_nat max_retries - S k)).
Proof.
  intros Hk. unfold py_range. rewrite <- map_app, <- seq_app.
  do 2 f_equal. lia.
Qed.

(** X3. Whatever the service does, a run makes at most [max_retries] calls,
    sleeps once between two calls and never after the last one. *)
Theorem submit_workload_bounded (w : world) :
  exists r n evs,
    submit w = (r, mk_world (later n (remote w)) (log w ++ evs)) /\
    calls_of evs = repeat req n /\
    Z.of_nat n <= Z.max 0 max_retries /\
    List.length (sleeps_of evs) = (n - 1)%nat /\
    (forall secs, last (schedule evs) (Call req) <> Sleep secs).
Proof.
  destruct (submit_workload_run self model_size_gb num_gpus gpu_type duration_hours
              utilization_pct use_smart_agent notes max_retries w)
    as (n & evs & Hrun & Hle & Hsched & _).
  exists (run_result req w n), n, evs. repeat split; auto.
  - rewrite <- calls_of_schedule, Hsched. apply calls_of_backoff.
  - lia.
  - rewrite <- sleeps_of_schedule, Hsched, sleeps_of_backoff_0.
    now rewrite length_map, length_seq.
  - rewrite Hsched. apply last_backoff_call.
Qed.

(** X4. When every attempt is caught, with [max_retries >= 1]: the log
    gains, for each attempt but the last, its call, the line of the failed
    attempt with its number and exception, the line of the retry and the
    sleep; then the last call, its line and the line that all attempts
    failed. The exception of the last attempt is raised, and the sleeps add
    up to [2^(max_retries-1) - 1] seconds. *)
Theorem submit_workload_failure_log (w : world) :
  1 <= max_retries ->
  (forall i, (i < Z.to_nat max_retries)%nat -> caught (remote w i req) = true) ->
  let last_exn := request_exception_of (remote w (Z.to_nat max_retries - 1) req) in
  let evs :=
    failure_entries req max_retries 0
      (first_exceptions (remote w) req (Z.to_nat max_retries - 1)) ++
    [ Call req; Print (MsgAttemptFailed max_retries max_retries last_exn);
      Print MsgAllFailed ] in
  submit w =
    (Raise last_exn,
     mk_world (later (Z.to_nat max_retries) (remote w)) (log w ++ evs)) /\
  total (sleeps_of evs) = 2 ^ (max_retries - 1) - 1.
Proof.
  intros Hmax Hall last_exn evs. subst last_exn evs.
  destruct (Z.to_nat max_retries) as [| k] eqn:Hn; [lia |].
  replace (S k - 1)%nat with k by lia.
  assert (Hk : Z.of_nat k = max_retries - 1) by lia.
  destruct (caught_raises (remote w k req)) as (Hres & _ & _); [apply Hall; lia |].
  split.
  - unfold submit_workload, py_range. rewrite Hn.
    rewrite <- (app_nil_r (map Z.of_nat (seq 0 (S k)))).
    rewrite (retry_loop_decided self payload max_retries k 0 [] w); try (cbn; lia).
    + rewrite Hres. unfold final_entries. rewrite (Hall k) by lia.
      cbn [Nat.add]. rewrite Hk.
      replace (max_retries - 1 + 1) with max_retries by lia. reflexivity.
    + intros i Hi. apply Hall. lia.
  - rewrite sleeps_of_app, total_app. cbn [sleeps_of]. 
    rewrite total_sleeps_failure_entries by lia.
    rewrite first_exceptions_length, Hk. cbn. lia.
Qed.

(** X5. When the first [k] attempts are caught and attempt [k] gets a 2xx
    response with a well-formed body whose printed strings can be encoded:
    the log gains the entries of the [k] failures, then the call and the
    lines of the report; the body is returned, and the sleeps before it add
    up to [2^k - 1] seconds. *)
Theorem submit_workload_retry_then_success (w : world) (k : nat) (v : value) :
  Z.of_nat k < max_retries ->
  (forall i, (i < k)%nat -> caught (remote w i req) = true) ->
  succeeds_with (remote w k req) v ->
  well_formed_result v = true ->
  printable_result v = true ->
  let evs :=
    failure_entries req max_retries 0 (first_exceptions (remote w) req k) ++
    Call req :: map Print (report_lines v) in
  submit w = (Ok v, mk_world (later (S k) (remote w)) (log w ++ evs)) /\
  total (sleeps_of evs) = 2 ^ Z.of_nat k - 1.
Proof.
  intros Hk Hpre Hsucc Hwf Hprint evs. subst evs.
  pose proof (succeeds_not_caught _ _ Hsucc) as Hnc.
  assert (Hrep : report v = Ok tt).
  { apply report_ok_iff. now rewrite Hwf, Hprint. }
  split.
  - unfold submit_workload. rewrite (py_range_split k Hk).
    rewrite (retry_loop_decided self payload max_retries k 0); auto; try (cbn; lia).
    + rewrite (succeeds_attempt _ _ Hsucc). rewrite Hrep.
      unfold final_entries. rewrite Hnc.
      destruct Hsucc as (resp & Ho & H2xx & Hbody). rewrite Ho.
      unfold attempt_lines. now rewrite (is_2xx_not_error _ H2xx), Hbody.
    + rewrite Hnc. discriminate.
  - rewrite sleeps_of_app, total_app. cbn [sleeps_of].
    rewrite sleeps_of_prints, total_sleeps_failure_entries by lia.
    rewrite first_exceptions_length. cbn. lia.
Qed.


End SubmitLog.

(* ===================================================================== *)
(** ** The lines of the report *)

Lemma is_number_format (v : value) : is_number v = true -> format_2f v = Ok tt.
Proof.
  intros H. destruct (format_2f_cases v) as [[_ Hf] | [Hn _]]; congruence.
Qed.

Lemma prints_of_app (l1 l2 : list event) :
  prints_of (l1 ++ l2) = prints_of l1 ++ prints_of l2.
Proof.
  induction l1 as [| [r | s | m] l1 IH]; simpl; auto. now rewrite IH.
Qed.

Lemma prints_of_prints (ms : list message) : prints_of (map Print ms) = ms.
Proof. induction ms as [| m ms IH]; simpl; auto. now rewrite IH. Qed.

Section ReportLines.

Variables (d est : dict) (id kwh carbon_kg cost_usd : value).

Hypothesis Hid : dict_lookup d "id" = Some id.
Hypothesis Hest : dict_lookup d "estimates" = Some (VDict est).
Hypothesis Hkwh : dict_lookup est "kwh" = Some kwh.
Hypothesis Hcarbon : dict_lookup est "carbon_kg" = Some carbon_kg.
Hypothesis Hcost : dict_lookup est "cost_usd" = Some cost_usd.
Hypothesis Hkwh_number : is_number kwh = true.
Hypothesis Hcarbon_number : is_number carbon_kg = true.
Hypothesis Hcost_number : is_number cost_usd = true.

Local Abbreviation method :=
  (match dict_lookup est "calculation_method" with
   | Some m => m
   | None => VStr "N/A"
   end).

Hypothesis Hid_printable : printable_value id = true.
Hypothesis Hmethod_printable : printable_value method = true.

Local Abbreviation estimate_lines :=
  [ MsgSubmitted; MsgId id; MsgEstimates; MsgEnergy kwh; MsgCarbon carbon_kg;
    MsgCost cost_usd; MsgMethod method ].

Ltac report_estimates :=
  unfold report, report_lines, print_results;
  unfold bind, lift, print, emit, ret, getitem, dict_get;
  rewrite Hid, Hest, Hkwh, Hcarbon, Hcost;
  rewrite (is_number_format _ Hkwh_number), (is_number_format _ Hcarbon_number),
    (is_number_format _ Hcost_number);
  cbn [encodable_message]; rewrite Hid_printable;
  revert Hmethod_printable;
  destruct (dict_lookup est "calculation_method") as [m |];
  intros Hmethod; rewrite Hmethod;
  cbn [blank log remote app].

(** X7. For a result with an [id] and the three estimates as numbers, whose
    [id] and method hold no lone surrogate if they are strings, and with
    insights absent or empty, the report goes through and prints seven
    lines: the id and the estimates as they are in the result, and as method
    [calculation_method], or [N/A] when the estimates have none. *)
Theorem report_lines_estimates :
  match dict_lookup d "agent_insights" with
  | Some insights => truthy insights = false
  | None => True
  end ->
  report (VDict d) = Ok tt /\ report_lines (VDict d) = estimate_lines.
Proof.
  intros Hins. report_estimates;
    (destruct (dict_lookup d "agent_insights") as [insights |];
     [rewrite Hins |]); split; reflexivity.
Qed.

(** X8. With insights that carry a list of optimizations, of which the
    first three hold no lone surrogate if they are strings, the report
    prints after those seven lines a heading and the first three
    optimizations, in their order and numbered from 1: never more than
    three. *)
Theorem report_lines_optimizations (insights : dict) (optimizations : list value) :
  dict_lookup d "agent_insights" = Some (VDict insights) ->
  insights <> [] ->
  dict_lookup insights "optimizations" = Some (VList optimizations) ->
  forallb printable_value (firstn 3 optimizations) = true ->
  report (VDict d) = Ok tt /\
  report_lines (VDict d) =
    estimate_lines ++ MsgOptimizations :: numbered 1 (firstn 3 optimizations) /\
  (List.length (numbered 1 (firstn 3 optimizations)) <= 3)%nat.
Proof.
  intros Hins Hnonempty Hopts Hitems.
  destruct insights as [| binding insights']; [contradiction |].
  report_estimates; rewrite Hins; cbn [truthy]; rewrite Hopts; cbn [slice3_items];
    rewrite (print_optimizations_exact _ _ _ Hitems);
    cbn [fst snd log remote app prints_of]; rewrite prints_of_prints;
    (repeat split; [destruct optimizations as [| o1 [| o2 [| o3 rest]]]; cbn; lia]).
Qed.

End ReportLines.

(* ===================================================================== *)
(** ** More on the constructor and the body *)

Lemma rstrip_slash_slashes_only (n : nat) : rstrip_slash (slashes n) = "".
Proof. induction n as [| n IH]; simpl; auto. now rewrite IH. Qed.

Lemma rstrip_slash_slashes (u : string) (n : nat) :
  rstrip_slash (u ++ slashes n) = rstrip_slash u.
Proof.
  induction u as [| c u IH]; simpl.
  - apply rstrip_slash_slashes_only.
  - now rewrite IH.
Qed.

(** X1. A base URL that does not end with a slash is kept as it is, and
    however many slashes follow it are all dropped: the client made from
    the URL and [n] slashes has the URL as its base. *)
Theorem init_drops_all_trailing_slashes (u : string) (n : nat) :
  ends_with_slash u = false ->
  api_base_url (__init__ (u ++ slashes n)) = u.
Proof.
  intros Hu. unfold __init__. cbn [api_base_url].
  rewrite rstrip_slash_slashes. now apply rstrip_slash_fixed.
Qed.

(** X2. Whatever the notes, the body carries each of the six arguments
    under its own key, unchanged and with the type it was given, and has
    one binding per key. *)
Theorem build_payload_fields (model_size_gb : float) (num_gpus : Z)
    (gpu_type : string) (duration_hours utilization_pct : float)
    (use_smart_agent : bool) (notes : option string) :
  let payload :=
    build_payload model_size_gb num_gpus gpu_type duration_hours
      utilization_pct use_smart_agent notes in
  dict_lookup payload "model_size_gb" = Some (VFloat model_size_gb) /\
  dict_lookup payload "num_gpus" = Some (VInt num_gpus) /\
  dict_lookup payload "gpu_type" = Some (VStr gpu_type) /\
  dict_lookup payload "duration_hours" = Some (VFloat duration_hours) /\
  dict_lookup payload "utilization_pct" = Some (VFloat utilization_pct) /\
  dict_lookup payload "use_smart_agent" = Some (VBool use_smart_agent) /\
  NoDup (dict_keys payload).
Proof.
  unfold build_payload.
  destruct notes as [s |]; cbn [of_optional_str truthy];
    [destruct (String.eqb s "") |]; cbn;
    repeat split; auto;
    repeat constructor; cbn; intuition discriminate.
Qed.

(* ===================================================================== *)
(** ** The script *)

Lemma client_run {A} (m : M A) (w : script_world) (r : res A)
    (f : nat -> request -> outcome) (l : list event) :
  m (mk_world (s_remote w) []) = (r, mk_world f l) ->
  client m w = (r, mk_script_world f (s_log w ++ map Client l)).
Proof. intros H. unfold client. now rewrite H. Qed.

Lemma client_schedule_app (l1 l2 : list script_event) :
  client_schedule (l1 ++ l2) = client_schedule l1 ++ client_schedule l2.
Proof.
  induction l1 as [| [[r | s | m] | ln] l1 IH]; simpl; auto; now rewrite IH.
Qed.

Lemma client_schedule_client (evs : list event) :
  client_schedule (map Client evs) = schedule evs.
Proof.
  induction evs as [| [r | s | m] evs IH]; simpl; auto; now rewrite IH.
Qed.

Lemma schedule_call_prints (r : request) (ms : list message) :
  schedule (Call r :: map Print ms) = [Call r].
Proof.
  cbn. f_equal. induction ms as [| m ms IH]; simpl; auto.
Qed.

Lemma heading_run (gap : bool) (title : string) (w : script_world) :
  heading gap title w =
  (Ok tt,
   mk_script_world (s_remote w)
     (s_log w ++ [Line (LnRule gap); Line (LnTitle title); Line (LnRule false)])).
Proof.
  unfold heading, sbind, say. cbn [s_remote s_log encodable_line].
  now rewrite <- !app_assoc.
Qed.

(** A submission whose first attempt is answered with a body on which the
    report goes through. *)
Lemma submit_first_answer (self : AluminatiEnergyTracker)
    (model_size_gb : float) (num_gpus : Z) (gpu_type : string)
    (duration_hours utilization_pct : float) (use_smart_agent : bool)
    (notes : option string) (max_retries : Z) (w : world) (v : value) :
  let req :=
    submit_request self
      (build_payload model_size_gb num_gpus gpu_type duration_hours
         utilization_pct use_smart_agent notes) in
  1 <= max_retries ->
  answers (remote w 0%nat req) v ->
  report v = Ok tt ->
  submit_workload self model_size_gb num_gpus gpu_type duration_hours
    utilization_pct use_smart_agent notes max_retries w =
  (Ok v,
   mk_world (later 1 (remote w)) (log w ++ Call req :: map Print (report_lines v))).
Proof.
  intros req Hmax (resp & Ho & Hstatus & Hbody) Hwf.
  assert (Hres : attempt_result (remote w 0%nat req) = Ok v).
  { rewrite Ho. simpl. now rewrite Hstatus, Hbody, Hwf. }
  assert (Hnc : caught (remote w 0%nat req) = false).
  { unfold caught. now rewrite Hres. }
  unfold submit_workload. rewrite (py_range_split max_retries 0) by lia.
  rewrite (retry_loop_decided _ _ max_retries 0 0).
  - fold req. rewrite Hres. unfold final_entries. rewrite Hnc, Ho.
    unfold attempt_lines. now rewrite Hstatus, Hbody.
  - intros i Hi. lia.
  - cbn. lia.
  - fold req. rewrite Hnc. discriminate.
Qed.

Lemma single_call_answer (r : request) (w : world) (v : value) :
  answers (remote w 0%nat r) v ->
  (response <- session_request r;;
   raise_for_status response;;;
   response_json response) w =
  (Ok v, mk_world (later 1 (remote w)) (log w ++ [Call r])).
Proof.
  intros (resp & Ho & Hstatus & Hbody). rewrite single_call_run, Ho.
  simpl. now rewrite Hstatus, Hbody.
Qed.

Section ScriptRun.

Variable str_of : value -> string.

Local Abbreviation tracker := script_tracker.

Lemma example1_ok (w : script_world) (v : value) :
  answers (s_remote w 0%nat script_request1) v ->
  report v = Ok tt ->
  exists l,
    example1 tracker w =
      (Ok v, mk_script_world (later 1 (s_remote w)) (s_log w ++ l)) /\
    client_schedule l = [Call script_request1].
Proof.
  intros Hans Hwf. unfold example1, sbind. rewrite heading_run.
  erewrite client_run;
    [| apply submit_first_answer; [unfold default_max_retries; lia | exact Hans | exact Hwf]].
  cbn [s_remote s_log log app]. eexists. split.
  - rewrite <- app_assoc. reflexivity.
  - rewrite client_schedule_app, client_schedule_client. cbn [client_schedule app].
    apply schedule_call_prints.
Qed.

Lemma example2_ok (w : script_world) (v : value) :
  answers (s_remote w 0%nat script_request2) v ->
  report v = Ok tt ->
  exists l,
    example2 tracker w =
      (Ok v, mk_script_world (later 1 (s_remote w)) (s_log w ++ l)) /\
    client_schedule l = [Call script_request2].
Proof.
  intros Hans Hwf. unfold example2, sbind. rewrite heading_run.
  erewrite client_run;
    [| apply submit_first_answer; [unfold default_max_retries; lia | exact Hans | exact Hwf]].
  cbn [s_remote s_log log app]. eexists. split.
  - rewrite <- app_assoc. reflexivity.
  - rewrite client_schedule_app, client_schedule_client. cbn [client_schedule app].
    apply schedule_call_prints.
Qed.

(** The first workload when its three attempts are caught. *)
Lemma example1_caught (w : script_world) :
  (forall i, (i < 3)%nat -> caught (s_remote w i script_request1) = true) ->
  exists l,
    example1 tracker w =
      (Raise (request_exception_of (s_remote w 2%nat script_request1)),
       mk_script_world (later 3 (s_remote w)) (s_log w ++ l)) /\
    client_schedule l =
      [ Call script_request1; Sleep 1; Call script_request1; Sleep 2;
        Call script_request1 ].
Proof.
  intros Hall. unfold example1, sbind. rewrite heading_run.
  destruct (caught_raises _ (Hall 2%nat ltac:(lia))) as (Hres & _ & _).
  erewrite client_run.
  2:{ unfold submit_workload, default_max_retries.
      change (py_range 3) with (map Z.of_nat (seq 0 3) ++ []).
      rewrite (retry_loop_decided _ _ 3 2 0 []).
      - reflexivity.
      - intros i Hi. cbn [remote]. apply Hall. lia.
      - cbn. lia.
      - cbn. lia. }
  cbn [s_remote s_log log remote app]. fold script_request1. rewrite Hres.
  eexists. split.
  - rewrite <- app_assoc. reflexivity.
  - rewrite client_schedule_app, client_schedule_client. cbn [client_schedule app].
    unfold final_entries. rewrite (Hall 2%nat) by lia.
    reflexivity.
Qed.

Lemma example3_run (w : script_world) (result1 id1 details : value) :
  getitem result1 "id" = Ok id1 ->
  answers (s_remote w 0%nat (get_request tracker (py_str str_of id1))) details ->
  exists l,
    example3 str_of tracker result1 w =
      (details_result details,
       mk_script_world (later 1 (s_remote w)) (s_log w ++ l)) /\
    client_schedule l = [Call (get_request tracker (py_str str_of id1))].
Proof.
  intros Hid Hans. unfold example3, sbind at 1 2 3. rewrite heading_run.
  unfold slift at 1. rewrite Hid.
  erewrite client_run; [| unfold get_workload; apply single_call_answer; exact Hans].
  cbn [s_remote s_log log app map remote].
  unfold details_result, detail_result, sbind, slift, say. cbn [encodable_line].
  destruct (getitem details "id") as [v1 | e1];
    [destruct (printable_value v1);
     [destruct (getitem details "status") as [v2 | e2];
      [destruct (printable_value v2);
       [destruct (getitem details "created_at") as [v3 | e3];
        [destruct (printable_value v3) |] |] |] |] |];
    (eexists; split;
     [cbn [s_log s_remote]; rewrite <- ?app_assoc; reflexivity |
      rewrite ?client_schedule_app; reflexivity]).
Qed.

Lemma example4_ok (w : script_world) (result1 id1 body1 body2 : value) :
  getitem result1 "id" = Ok id1 ->
  answers (s_remote w 0%nat (patch_request tracker (py_str str_of id1) "running"))
    body1 ->
  answers (s_remote w 1%nat (patch_request tracker (py_str str_of id1) "completed"))
    body2 ->
  exists l,
    example4 str_of tracker result1 w =
      (Ok tt, mk_script_world (later 2 (s_remote w)) (s_log w ++ l)) /\
    client_schedule l =
      [ Call (patch_request tracker (py_str str_of id1) "running"); Sleep 1;
        Call (patch_request tracker (py_str str_of id1) "completed") ].
Proof.
  intros Hid Hans1 Hans2. unfold example4, sbind. rewrite heading_run.
  unfold slift. rewrite Hid.
  erewrite client_run; [| unfold update_status; apply single_call_answer; exact Hans1].
  unfold say at 1. cbn [s_remote s_log log app map encodable_line].
  erewrite (client_run (sleep 1)); [| reflexivity].
  cbn [s_remote s_log log app map].
  erewrite client_run; [| unfold update_status; apply single_call_answer; exact Hans2].
  unfold say. cbn [s_remote s_log log app map encodable_line].
  eexists. split.
  - rewrite <- !app_assoc. reflexivity.
  - reflexivity.
Qed.

End ScriptRun.

Section ScriptTheorems.

Variable str_of : value -> string.
Variable w : script_world.

Local Abbreviation tracker := script_tracker.

(** X9. When the service answers the two submissions with well-formed
    results whose printed strings can be encoded, the query with details
    that have [id], [status] and [created_at], none of them a string with a
    lone surrogate, and the two updates with any body, the script completes,
    and what it sends is, in this order: the first workload, the second
    workload, a GET of the first workload's id, a PATCH of that id to
    running, after one second of sleep a PATCH of it to completed. *)
Theorem main_completes (result1 result2 id1 details body1 body2 : value) :
  let workload_id := py_str str_of id1 in
  answers (s_remote w 0%nat script_request1) result1 ->
  well_formed_result result1 = true ->
  printable_result result1 = true ->
  getitem result1 "id" = Ok id1 ->
  answers (s_remote w 1%nat script_request2) result2 ->
  well_formed_result result2 = true ->
  printable_result result2 = true ->
  answers (s_remote w 2%nat (get_request tracker workload_id)) details ->
  details_result details = Ok tt ->
  answers (s_remote w 3%nat (patch_request tracker workload_id "running")) body1 ->
  answers (s_remote w 4%nat (patch_request tracker workload_id "completed")) body2 ->
  exists l,
    main str_of w = (Ok tt, mk_script_world (later 5 (s_remote w)) (s_log w ++ l)) /\
    client_schedule l =
      [ Call script_request1; Call script_request2;
        Call (get_request tracker workload_id);
        Call (patch_request tracker workload_id "running"); Sleep 1;
        Call (patch_request tracker workload_id "completed") ].
Proof.
  intros workload_id H1 Hwf1 Hpr1 Hid H2 Hwf2 Hpr2 H3 Hdetails H4 H5.
  assert (Hrep1 : report result1 = Ok tt)
    by (apply report_ok_iff; now rewrite Hwf1, Hpr1).
  assert (Hrep2 : report result2 = Ok tt)
    by (apply report_ok_iff; now rewrite Hwf2, Hpr2).
  unfold main, sbind. unfold say at 1. cbn [encodable_line].
  destruct (example1_ok (mk_script_world (s_remote w) (s_log w ++ [Line LnWelcome]))
              result1 H1 Hrep1) as (l1 & He1 & Hs1).
  rewrite He1. cbn [s_remote s_log] in *.
  match goal with |- context [example2 _ ?w1] =>
    destruct (example2_ok w1 result2 H2 Hrep2) as (l2 & He2 & Hs2) end.
  rewrite He2. cbn [s_remote s_log] in *.
  match goal with |- context [example3 _ _ _ ?w2] =>
    destruct (example3_run str_of w2 result1 id1 details Hid H3) as (l3 & He3 & Hs3) end.
  rewrite He3, Hdetails. cbn [s_remote s_log] in *.
  match goal with |- context [example4 _ _ _ ?w3] =>
    destruct (example4_ok str_of w3 result1 id1 body1 body2 Hid H4 H5)
      as (l4 & He4 & Hs4) end.
  rewrite He4. unfold say. cbn [s_remote s_log encodable_line] in *.
  exists ([Line LnWelcome] ++ l1 ++ l2 ++ l3 ++ l4 ++
          [Line (LnRule true); Line LnCompleted; Line (LnRule false)]).
  split.
  - f_equal. f_equal. repeat rewrite <- app_assoc. reflexivity.
  - rewrite !client_schedule_app, Hs1, Hs2, Hs3, Hs4. reflexivity.
Qed.

(** X10. When the three attempts of the first submission are caught, the
    script stops there with the exception of the third: it has sent the
    first workload three times, with sleeps of one and two seconds between,
    and nothing else: no second workload, no query, no update. *)
Theorem main_stops_on_failure :
  (forall i, (i < 3)%nat -> caught (s_remote w i script_request1) = true) ->
  exists l,
    main str_of w =
      (Raise (request_exception_of (s_remote w 2%nat script_request1)),
       mk_script_world (later 3 (s_remote w)) (s_log w ++ l)) /\
    client_schedule l =
      [ Call script_request1; Sleep 1; Call script_request1; Sleep 2;
        Call script_request1 ].
Proof.
  intros Hall. unfold main, sbind. unfold say at 1. cbn [encodable_line].
  destruct (example1_caught (mk_script_world (s_remote w) (s_log w ++ [Line LnWelcome]))
              Hall) as (l1 & He1 & Hs1).
  rewrite He1. cbn [s_remote s_log] in *.
  exists ([Line LnWelcome] ++ l1). split.
  - f_equal. f_equal. now rewrite <- app_assoc.
  - now rewrite client_schedule_app, Hs1.
Qed.


End ScriptTheorems.

Lemma single_call_failure (r : request) (w : world) (e : exn) :
  failure_of (remote w 0%nat r) = Some e ->
  (response <- session_request r;;
   raise_for_status response;;;
   response_json response) w =
  (Raise e, mk_world (later 1 (remote w)) (log w ++ [Call r])).
Proof.
  intros Hfail. rewrite single_call_run. f_equal.
  destruct (remote w 0%nat r) as [t | resp]; simpl in *.
  - now injection Hfail as <-.
  - destruct (is_error_status (status_code resp)); [now injection Hfail as <- | discriminate].
Qed.

Section ScriptUpdate.

Variable str_of : value -> string.
Variable w : script_world.

Local Abbreviation tracker := script_tracker.

(** X13. When the submissions and the query are answered, with results
    and details that the script can print, but the first status update
    fails (a transport error or an error status), the script
    stops with that failure: the update is not retried, the script does not
    sleep, and the update to completed is never sent. *)
Theorem main_stops_on_update_failure
    (result1 result2 id1 details : value) (e : exn) :
  let workload_id := py_str str_of id1 in
  answers (s_remote w 0%nat script_request1) result1 ->
  well_formed_result result1 = true ->
  printable_result result1 = true ->
  getitem result1 "id" = Ok id1 ->
  answers (s_remote w 1%nat script_request2) result2 ->
  well_formed_result result2 = true ->
  printable_result result2 = true ->
  answers (s_remote w 2%nat (get_request tracker workload_id)) details ->
  details_result details = Ok tt ->
  failure_of (s_remote w 3%nat (patch_request tracker workload_id "running")) = Some e ->
  exists l,
    main str_of w = (Raise e, mk_script_world (later 4 (s_remote w)) (s_log w ++ l)) /\
    client_schedule l =
      [ Call script_request1; Call script_request2;
        Call (get_request tracker workload_id);
        Call (patch_request tracker workload_id "running") ].
Proof.
  intros workload_id H1 Hwf1 Hpr1 Hid H2 Hwf2 Hpr2 H3 Hdetails H4.
  assert (Hrep1 : report result1 = Ok tt)
    by (apply report_ok_iff; now rewrite Hwf1, Hpr1).
  assert (Hrep2 : report result2 = Ok tt)
    by (apply report_ok_iff; now rewrite Hwf2, Hpr2).
  unfold main, sbind. unfold say at 1. cbn [encodable_line].
  destruct (example1_ok (mk_script_world (s_remote w) (s_log w ++ [Line LnWelcome]))
              result1 H1 Hrep1) as (l1 & He1 & Hs1).
  rewrite He1. cbn [s_remote s_log] in *.
  match goal with |- context [example2 _ ?w1] =>
    destruct (example2_ok w1 result2 H2 Hrep2) as (l2 & He2 & Hs2) end.
  rewrite He2. cbn [s_remote s_log] in *.
  match goal with |- context [example3 _ _ _ ?w2] =>
    destruct (example3_run str_of w2 result1 id1 details Hid H3) as (l3 & He3 & Hs3) end.
  rewrite He3, Hdetails. cbn [s_remote s_log] in *.
  unfold example4, sbind. rewrite heading_run. unfold slift. rewrite Hid.
  erewrite client_run; [| unfold update_status; apply single_call_failure; exact H4].
  cbn [s_remote s_log log app map].
  eexists. split.
  - f_equal. f_equal. repeat rewrite <- app_assoc. reflexivity.
  - rewrite !client_schedule_app, Hs1, Hs2, Hs3. reflexivity.
Qed.

End ScriptUpdate.

Section SubmitRaises.

Variable self : AluminatiEnergyTracker.
Variables (model_size_gb : float) (num_gpus : Z) (gpu_type : string).
Variables (duration_hours utilization_pct : float) (use_smart_agent : bool).
Variable notes : option string.
Variable max_retries : Z.

Local Abbreviation payload :=
  (build_payload model_size_gb num_gpus gpu_type duration_hours
     utilization_pct use_smart_agent notes).

Local Abbreviation req := (submit_request self payload).

Local Abbreviation submit :=
  (submit_workload self model_size_gb num_gpus gpu_type duration_hours
     utilization_pct use_smart_agent notes max_retries).


End SubmitRaises.

(* ===================================================================== *)
(** ** The theorems above at the stubs *)

Lemma init_drops_all_trailing_slashes_witness :
  api_base_url (__init__ ("https://aluminatiai.com" ++ slashes 2)) =
  "https://aluminatiai.com".
Proof.
  apply (init_drops_all_trailing_slashes "https://aluminatiai.com" 2).
  reflexivity.
Defined.

Lemma submit_workload_failure_log_witness :
  example_submit 3 unavailable =
    (Raise (HTTPError 503),
     mk_world (later 3 (remote unavailable))
       (log unavailable ++
        failure_entries example_request 3 0 [HTTPError 503; HTTPError 503] ++
        [ Call example_request; Print (MsgAttemptFailed 3 3 (HTTPError 503));
          Print MsgAllFailed ])) /\
  total (sleeps_of
           (failure_entries example_request 3 0 [HTTPError 503; HTTPError 503] ++
            [ Call example_request; Print (MsgAttemptFailed 3 3 (HTTPError 503));
              Print MsgAllFailed ])) = 3.
Proof.
  apply (submit_workload_failure_log example_tracker 70 8 "H100" 72 85 true None 3
           unavailable).
  - lia.
  - intros i _. reflexivity.
Defined.

Lemma submit_workload_retry_then_success_witness :
  let w := after_timeouts 2 (respond 200 (Some stub_result)) in
  let evs :=
    failure_entries example_request 3 0 [TransportExn Timeout; TransportExn Timeout] ++
    Call example_request :: map Print (report_lines stub_result) in
  example_submit 3 w = (Ok stub_result, mk_world (later 3 (remote w)) (log w ++ evs)) /\
  total (sleeps_of evs) = 3.
Proof.
  apply (submit_workload_retry_then_success example_tracker 70 8 "H100" 72 85 true
           None 3 (after_timeouts 2 (respond 200 (Some stub_result))) 2 stub_result).
  - lia.
  - intros [| [| i]] Hi; try reflexivity. lia.
  - exists (mk_response 200 (Some stub_result) NotJSON). repeat split; reflexivity.
  - reflexivity.
  - reflexivity.
Defined.


Lemma report_lines_estimates_witness :
  report stub_result = Ok tt /\
  report_lines stub_result =
    [ MsgSubmitted; MsgId (VStr "abc123"); MsgEstimates; MsgEnergy (VFloat 1200.5);
      MsgCarbon (VFloat 0x1.2c1999999999ap+9); MsgCost (VFloat 150);
      MsgMethod (VStr "N/A") ].
Proof.
  apply (report_lines_estimates
           [ ("id", VStr "abc123"); ("status", VStr "submitted");
             ("estimates",
              VDict [ ("kwh", VFloat 1200.5);
                      ("carbon_kg", VFloat 0x1.2c1999999999ap+9);
                      ("cost_usd", VFloat 150) ]) ]
           [ ("kwh", VFloat 1200.5); ("carbon_kg", VFloat 0x1.2c1999999999ap+9);
             ("cost_usd", VFloat 150) ]);
    reflexivity.
Defined.

Lemma report_lines_optimizations_witness :
  report stub_insights = Ok tt /\
  report_lines stub_insights =
    [ MsgSubmitted; MsgId (VStr "abc123"); MsgEstimates; MsgEnergy (VInt 1200);
      MsgCarbon (VInt 600); MsgCost (VInt 150); MsgMethod (VStr "agent");
      MsgOptimizations; MsgOptimization 1 (VStr "a"); MsgOptimization 2 (VStr "b");
      MsgOptimization 3 (VStr "c") ] /\
  (3 <= 3)%nat.
Proof.
  apply (report_lines_optimizations
           [ ("id", VStr "abc123");
             ("estimates",
              VDict [ ("kwh", VInt 1200); ("carbon_kg", VInt 600);
                      ("cost_usd", VInt 150); ("calculation_method", VStr "agent") ]);
             ("agent_insights",
              VDict [ ("optimizations",
                       VList [VStr "a"; VStr "b"; VStr "c"; VStr "d"]) ]) ]
           [ ("kwh", VInt 1200); ("carbon_kg", VInt 600); ("cost_usd", VInt 150);
             ("calculation_method", VStr "agent") ]
           (VStr "abc123") (VInt 1200) (VInt 600) (VInt 150)
           eq_refl eq_refl eq_refl eq_refl eq_refl eq_refl eq_refl eq_refl
           eq_refl eq_refl
           [ ("optimizations", VList [VStr "a"; VStr "b"; VStr "c"; VStr "d"]) ]
           [VStr "a"; VStr "b"; VStr "c"; VStr "d"]);
    try reflexivity.
  discriminate.
Defined.

Lemma main_completes_witness :
  let w := script_always (respond 200 (Some stub_details)) in
  exists l,
    main no_str w = (Ok tt, mk_script_world (later 5 (s_remote w)) (s_log w ++ l)) /\
    client_schedule l =
      [ Call script_request1; Call script_request2;
        Call (get_request script_tracker "abc123");
        Call (patch_request script_tracker "abc123" "running"); Sleep 1;
        Call (patch_request script_tracker "abc123" "completed") ].
Proof.
  assert (Hans : forall i r,
             answers (s_remote (script_always (respond 200 (Some stub_details))) i r)
               stub_details).
  { intros i r. exists (mk_response 200 (Some stub_details) NotJSON). repeat split. }
  apply (main_completes no_str (script_always (respond 200 (Some stub_details)))
           stub_details stub_details (VStr "abc123") stub_details stub_details
           stub_details);
    try apply Hans; reflexivity.
Defined.

Lemma main_stops_on_failure_witness :
  let w := script_always (respond 503 None) in
  exists l,
    main no_str w =
      (Raise (HTTPError 503), mk_script_world (later 3 (s_remote w)) (s_log w ++ l)) /\
    client_schedule l =
      [ Call script_request1; Sleep 1; Call script_request1; Sleep 2;
        Call script_request1 ].
Proof.
  apply (main_stops_on_failure no_str (script_always (respond 503 None))).
  intros i _. reflexivity.
Defined.


Lemma main_stops_on_update_failure_witness :
  let w := script_then 3 (respond 200 (Some stub_details)) (respond 404 None) in
  exists l,
    main no_str w =
      (Raise (HTTPError 404), mk_script_world (later 4 (s_remote w)) (s_log w ++ l)) /\
    client_schedule l =
      [ Call script_request1; Call script_request2;
        Call (get_request script_tracker "abc123");
        Call (patch_request script_tracker "abc123" "running") ].
Proof.
  assert (Hans : forall i r,
             (i < 3)%nat ->
             answers
               (s_remote (script_then 3 (respond 200 (Some stub_details))
                            (respond 404 None)) i r)
               stub_details).
  { intros [| [| [| i]]] r Hi; try lia;
      exists (mk_response 200 (Some stub_details) NotJSON); repeat split. }
  apply (main_stops_on_update_failure no_str
           (script_then 3 (respond 200 (Some stub_details)) (respond 404 None))
           stub_details stub_details (VStr "abc123") stub_details (HTTPError 404));
    try (apply Hans; lia); reflexivity.
Defined.
